(** * SpaceX Launch Records Dashboard: a shallow embedding of
      [spacex_dash_app.py] and the properties of its filter-and-aggregate
      pipeline.

    The Python module keeps one global data frame [spacex_df], derives the
    initial values of two controls from it, and registers two callbacks:
    [get_pie_chart] (driven by the site dropdown only) and
    [get_scatter_plot] (driven by the dropdown and the payload slider).

    Modelling conventions.
    - A data frame is the ordered list of its rows; a row carries the four
      columns the program reads.  A cell is an [option]: [None] is the
      missing value (pandas' NaN).
    - A payload is a rational number: every finite float64 is a rational and
      float comparison agrees with rational comparison on finite values;
      comparisons with NaN are false, as in IEEE 754 and pandas.  Infinite
      payloads are not modelled.
    - An outcome ([class]) is an integer.  The column is of dtype int64 when
      no cell is missing and of dtype float64 otherwise, which only shows in
      the string form of a value ([astype(str)]).
    - A string is a byte string; [String.compare] is the byte-wise
      lexicographic order, which is Python's order on str for UTF-8 text.
    - The value of the dropdown is a str or [None] (a cleared dropdown).
    - A pie figure is the record of what the callback hands to [px.pie]:
      the rows of the frame projected on the names and values columns, and
      the title.  A scatter figure holds the traces that [px.scatter] makes
      of its frame, one per value of the colour column. *)

From Stdlib Require Import List Bool Arith ZArith QArith String Ascii.
From Stdlib Require Import Lia Permutation Sorted DecimalString DecimalPos DecimalZ.
Import ListNotations.

Local Open Scope string_scope.
Local Open Scope Z_scope.
Local Open Scope list_scope.

(** ** Exceptions *)

Inductive Exception : Type :=
| FileNotFoundError (msg : string)
| ValueError (msg : string)
| ReadError (msg : string).

Inductive result (A : Type) : Type :=
| Ok (a : A)
| Raise (e : Exception).

Arguments Ok {A} a.
Arguments Raise {A} e.

(** ** The value of the site dropdown

    Dash hands the callbacks the value of the selected option, a str, or
    [None] when the dropdown has been cleared. *)

Inductive SiteValue : Type :=
| PyNone
| Str (s : string).

Coercion Str : string >-> SiteValue.

(** [entered_site == "ALL"]. *)
Definition is_all (entered_site : SiteValue) : bool :=
  match entered_site with
  | Str s => String.eqb s "ALL"
  | PyNone => false
  end.

(** [{entered_site}] inside an f-string. *)
Definition format_site (entered_site : SiteValue) : string :=
  match entered_site with
  | Str s => s
  | PyNone => "None"
  end.

(** ** The fragment of pandas the program uses *)

Module Pandas.

(** [series >= x], [series <= x] and [series == s]: element-wise masks;
    a missing cell compares false, and so does every cell against [None]. *)
Definition ge_scalar (col : list (option Q)) (x : Q) : list bool :=
  map (fun c => match c with Some v => Qle_bool x v | None => false end) col.

Definition le_scalar (col : list (option Q)) (x : Q) : list bool :=
  map (fun c => match c with Some v => Qle_bool v x | None => false end) col.

Definition eq_scalar (col : list (option string)) (s : SiteValue) : list bool :=
  map (fun c => match c, s with
                | Some v, Str s' => String.eqb v s'
                | _, _ => false
                end) col.

(** [m1 & m2] on two masks of one frame. *)
Fixpoint mask_and (m1 m2 : list bool) : list bool :=
  match m1, m2 with
  | b1 :: m1', b2 :: m2' => (b1 && b2) :: mask_and m1' m2'
  | _, _ => []
  end.

(** [df[mask]]: the rows whose mask entry is true, in the frame's order. *)
Fixpoint boolean_index {A : Type} (rows : list A) (mask : list bool) : list A :=
  match rows, mask with
  | r :: rows', b :: mask' =>
      if b then r :: boolean_index rows' mask' else boolean_index rows' mask'
  | _, _ => []
  end.

(** [series.dropna()]. *)
Fixpoint dropna {A : Type} (col : list (option A)) : list A :=
  match col with
  | [] => []
  | Some v :: col' => v :: dropna col'
  | None :: col' => dropna col'
  end.

(** [series.unique()]: the distinct values in order of first appearance. *)
Fixpoint unique_acc {A : Type} (eqb : A -> A -> bool)
         (seen : list A) (l : list A) : list A :=
  match l with
  | [] => []
  | x :: l' =>
      if existsb (eqb x) seen then unique_acc eqb seen l'
      else x :: unique_acc eqb (x :: seen) l'
  end.

Definition unique {A : Type} (eqb : A -> A -> bool) (l : list A) : list A :=
  unique_acc eqb [] l.

(** [series.min()] and [series.max()]: missing cells are skipped; the
    result is NaN when no cell is present. *)
Definition Qmin_b (a b : Q) : Q := if Qle_bool a b then a else b.
Definition Qmax_b (a b : Q) : Q := if Qle_bool a b then b else a.

Definition reduce (f : Q -> Q -> Q) (col : list (option Q)) : option Q :=
  match dropna col with
  | [] => None
  | v :: vs => Some (fold_left f vs v)
  end.

Definition min (col : list (option Q)) : option Q := reduce Qmin_b col.
Definition max (col : list (option Q)) : option Q := reduce Qmax_b col.

End Pandas.

(** ** Python's [sorted] *)

Section Sorted.
Context {A : Type} (leb : A -> A -> bool).

Fixpoint insert_sorted (x : A) (l : list A) : list A :=
  match l with
  | [] => [x]
  | y :: l' => if leb x y then x :: l else y :: insert_sorted x l'
  end.

(** A stable sort: among equal keys the earlier element stays first. *)
Definition sorted (l : list A) : list A := fold_right insert_sorted [] l.
End Sorted.

(** ** The data frame *)

Record LaunchRecord : Type := mkRecord {
  launch_site : option string;             (* "Launch Site" *)
  class : option Z;                        (* "class" *)
  payload_mass : option Q;                 (* "Payload Mass (kg)" *)
  booster_version_category : option string (* "Booster Version Category" *)
}.

Definition DataFrame : Type := list LaunchRecord.

(** ** Figures *)

Definition Point : Type := (option Q * option Z * option string)%type.
Definition Slice : Type := (option string * option Z)%type.

(** A scatter figure holds one trace per value of the [color] column. *)
Definition Trace : Type := (string * list Point)%type.

Inductive Figure : Type :=
| Pie (rows : list Slice) (title : string)
| Scatter (traces : list Trace) (title : string).

Module Px.
(** [px.pie(frame, values=v, names=n, title=t)]. *)
Definition pie {R : Type} (frame : list R) (values : R -> option Z)
           (names : R -> option string) (title : string) : Figure :=
  Pie (map (fun r => (names r, values r)) frame) title.

(** [px.scatter(frame, x=.., y=.., color=.., title=t)]: the frame is
    grouped by the [color] column, one trace per value in order of first
    appearance, each with its rows in the order of the frame; a row whose
    [color] cell is missing belongs to no group. *)
Definition has_color {R : Type} (color : R -> option string) (c : string)
           (r : R) : bool :=
  match color r with Some v => String.eqb v c | None => false end.

Definition scatter {R : Type} (frame : list R) (x : R -> option Q)
           (y : R -> option Z) (color : R -> option string)
           (title : string) : Figure :=
  Scatter (map (fun c => (c, map (fun r => (x r, y r, color r))
                                 (filter (has_color color c) frame)))
               (Pandas.unique String.eqb (Pandas.dropna (map color frame))))
          title.
End Px.

Definition points_of (f : Figure) : list Point :=
  match f with Scatter traces _ => List.concat (map snd traces) | Pie _ _ => [] end.

Definition slices_of (f : Figure) : list Slice :=
  match f with Pie rows _ => rows | Scatter _ _ => [] end.

Definition title_of (f : Figure) : string :=
  match f with Pie _ t => t | Scatter _ t => t end.

(** ** [get_scatter_plot] *)

Definition project (r : LaunchRecord) : Point :=
  (payload_mass r, class r, booster_version_category r).

(** [low, high = payload_range]. *)
Definition unpack2 (payload_range : list Q) : result (Q * Q) :=
  match payload_range with
  | [low; high] => Ok (low, high)
  | [] => Raise (ValueError "not enough values to unpack (expected 2, got 0)")
  | [_] => Raise (ValueError "not enough values to unpack (expected 2, got 1)")
  | _ => Raise (ValueError "too many values to unpack (expected 2)")
  end.

(** Lines 144-146: the payload mask applied to the global frame. *)
Definition payload_filter (spacex_df : DataFrame) (low high : Q) : DataFrame :=
  let col := map payload_mass spacex_df in
  Pandas.boolean_index spacex_df
    (Pandas.mask_and (Pandas.ge_scalar col low) (Pandas.le_scalar col high)).

(** Line 149. *)
Definition site_filter (df : DataFrame) (entered_site : SiteValue) : DataFrame :=
  Pandas.boolean_index df (Pandas.eq_scalar (map launch_site df) entered_site).

(** The frame [df] that lines 143-149 build, as a function of the unpacked
    range; [get_scatter_plot] below computes it inline. *)
Definition filtered_view (spacex_df : DataFrame) (entered_site : SiteValue)
           (low high : Q) : DataFrame :=
  let df := payload_filter spacex_df low high in
  if negb (is_all entered_site) then site_filter df entered_site else df.

Definition scatter_title (entered_site : SiteValue) : string :=
  if negb (is_all entered_site) then
    ("Correlation between Payload and Success for site "
       ++ format_site entered_site)%string
  else "Correlation between Payload and Success for all Sites".

Definition get_scatter_plot (spacex_df : DataFrame) (entered_site : SiteValue)
           (payload_range : list Q) : result Figure :=
  match unpack2 payload_range with
  | Raise e => Raise e
  | Ok (low, high) =>
      let df := payload_filter spacex_df low high in
      let '(df, title) :=
        if negb (is_all entered_site) then
          (site_filter df entered_site,
           ("Correlation between Payload and Success for site "
              ++ format_site entered_site)%string)
        else
          (df, "Correlation between Payload and Success for all Sites") in
      Ok (Px.scatter df payload_mass class booster_version_category title)
  end.

(** ** [get_pie_chart] *)

(** [series.value_counts()]: one row per distinct present value with the
    number of its occurrences, most frequent first; missing cells are
    dropped ([dropna=True] is the default).  [rename_axis] and
    [reset_index] only name the two columns. *)
Definition occurrences (v : Z) (vals : list Z) : nat :=
  List.length (filter (Z.eqb v) vals).

Definition value_counts (col : list (option Z)) : list (Z * nat) :=
  let vals := Pandas.dropna col in
  sorted (fun a b => Nat.leb (snd b) (snd a))
         (map (fun v => (v, occurrences v vals)) (Pandas.unique Z.eqb vals)).

(** [.sort_values("class")]. *)
Definition sort_values_class (rows : list (Z * nat)) : list (Z * nat) :=
  sorted (fun a b => Z.leb (fst a) (fst b)) rows.

(** [.map({0: "Failure", 1: "Success"})]: a key absent from the dict maps
    to the missing value. *)
Definition outcome_names (v : Z) : option string :=
  if v =? 0 then Some "Failure"
  else if v =? 1 then Some "Success"
  else None.

(** [.astype(str)] on the [class] column: ["2"] for dtype int64 and ["2.0"]
    for dtype float64 (below 10^16, where Python prints floats in
    positional notation). *)
Definition astype_str (float_dtype : bool) (v : Z) : string :=
  (NilZero.string_of_int (Z.to_int v) ++ (if float_dtype then ".0" else ""))%string.

Definition fillna (c : option string) (other : string) : string :=
  match c with Some s => s | None => other end.

(** The [class] column is read as float64 as soon as one cell is missing. *)
Definition class_is_float (spacex_df : DataFrame) : bool :=
  existsb (fun r => match class r with None => true | Some _ => false end) spacex_df.

Record OutcomeCount : Type := mkOutcomeCount {
  oc_class : Z;       (* "class" *)
  oc_count : nat;     (* "count" *)
  oc_Outcome : string (* "Outcome" *)
}.

Definition outcome_counts (spacex_df : DataFrame) (entered_site : SiteValue)
  : list OutcomeCount :=
  let filtered_df := site_filter spacex_df entered_site in
  let counts := sort_values_class (value_counts (map class filtered_df)) in
  map (fun vc =>
         mkOutcomeCount (fst vc) (snd vc)
           (fillna (outcome_names (fst vc))
                   (astype_str (class_is_float spacex_df) (fst vc))))
      counts.

Definition get_pie_chart (spacex_df : DataFrame) (entered_site : SiteValue)
  : Figure :=
  if is_all entered_site then
    Px.pie spacex_df class launch_site "Total Successful Launches by Site"
  else
    Px.pie (outcome_counts spacex_df entered_site)
           (fun r => Some (Z.of_nat (oc_count r)))
           (fun r => Some (oc_Outcome r))
           ("Total Launch Outcomes for site " ++ format_site entered_site)%string.

(** ** The merge of equal labels in a pie trace

    The figure of the all-sites mode lists one row per launch; the program
    itself groups nothing.  A pie trace merges the rows that carry the same
    label into one sector and sums their values (Plotly: "if labels entries
    are duplicated, we sum associated values"); a row without a numeric
    value contributes nothing.  [pie_sectors] is this merge alone, with the
    sectors in order of first appearance.  What the renderer then does with
    the merged sectors (it draws none for a negative sum and orders the
    legend by value) is not part of it. *)

Definition label_eqb (a b : option string) : bool :=
  match a, b with
  | Some x, Some y => String.eqb x y
  | None, None => true
  | _, _ => false
  end.

Fixpoint add_sector (lbl : option string) (v : Z)
         (acc : list (option string * Z)) : list (option string * Z) :=
  match acc with
  | [] => [(lbl, v)]
  | (l, s) :: acc' =>
      if label_eqb l lbl then (l, s + v) :: acc'
      else (l, s) :: add_sector lbl v acc'
  end.

Definition sector_step (acc : list (option string * Z)) (row : Slice)
  : list (option string * Z) :=
  match snd row with
  | Some v => add_sector (fst row) v acc
  | None => acc
  end.

Definition pie_sectors (rows : list Slice) : list (option string * Z) :=
  fold_left sector_step rows [].

(** The value shown for a label: the value of its sector, 0 without one. *)
Fixpoint sector_value (sectors : list (option string * Z))
         (lbl : option string) : Z :=
  match sectors with
  | [] => 0
  | (l, s) :: rest => if label_eqb l lbl then s else sector_value rest lbl
  end.

Definition sum_Z (l : list Z) : Z := fold_right Z.add 0 l.

(** ** The callback registrations (lines 89-92 and 130-136) *)

Record ControlState : Type := mkControl {
  site_dropdown_value : SiteValue;
  payload_slider_value : list Q
}.

(** Output [success-pie-chart]: its only Input is the dropdown's value. *)
Definition success_pie_chart (spacex_df : DataFrame) (cs : ControlState) : Figure :=
  get_pie_chart spacex_df (site_dropdown_value cs).

(** Output [success-payload-scatter-chart]: Inputs are both controls. *)
Definition success_payload_scatter_chart (spacex_df : DataFrame)
           (cs : ControlState) : result Figure :=
  get_scatter_plot spacex_df (site_dropdown_value cs) (payload_slider_value cs).

(** ** The controls (lines 47-55 and 62-82) *)

Definition min_payload (spacex_df : DataFrame) : option Q :=
  Pandas.min (map payload_mass spacex_df).

Definition max_payload (spacex_df : DataFrame) : option Q :=
  Pandas.max (map payload_mass spacex_df).

Definition launch_sites (spacex_df : DataFrame) : list string :=
  sorted String.leb
         (Pandas.unique String.eqb (Pandas.dropna (map launch_site spacex_df))).

Record DropdownOption : Type := mkOption { label : string; value : string }.

Definition dropdown_options (spacex_df : DataFrame) : list DropdownOption :=
  [mkOption "All Sites" "ALL"]
    ++ map (fun site => mkOption site site) (launch_sites spacex_df).

Record Dropdown : Type := mkDropdown {
  dd_id : string;
  dd_options : list DropdownOption;
  dd_value : string
}.

Record RangeSlider : Type := mkRangeSlider {
  rs_id : string;
  rs_min : Z;
  rs_max : Z;
  rs_step : Z;
  rs_marks : list (Z * string);
  rs_value : list (option Q)
}.

Definition site_dropdown (spacex_df : DataFrame) : Dropdown :=
  mkDropdown "site-dropdown" (dropdown_options spacex_df) "ALL".

Definition payload_slider (spacex_df : DataFrame) : RangeSlider :=
  mkRangeSlider "payload-slider" 0 10000 1000
    [(0, "0"); (2500, "2500"); (5000, "5000"); (7500, "7500"); (10000, "10000")]
    [min_payload spacex_df; max_payload spacex_df].

(** ** [load_data] *)

Record CsvTable : Type := mkTable {
  columns : list string;
  body : list (list string)
}.

(** What the program asks of the file system: [path.exists()] and
    [pd.read_csv(path)], which may raise on its own. *)
Record FileSystem : Type := mkFS {
  path_exists : string -> bool;
  read_csv : string -> result CsvTable
}.

Definition required_cols : list string :=
  ["Launch Site"; "class"; "Payload Mass (kg)"; "Booster Version Category"].

Definition in_columns (c : string) (cols : list string) : bool :=
  existsb (String.eqb c) cols.

(** [required_cols - set(df.columns)]. *)
Definition missing_cols (df : CsvTable) : list string :=
  filter (fun c => negb (in_columns c (columns df))) required_cols.

(** The text of a list of str inside an f-string. *)
Fixpoint join (sep : string) (l : list string) : string :=
  match l with
  | [] => ""
  | [s] => s
  | s :: l' => s ++ sep ++ join sep l'
  end%string.

Definition repr_list (l : list string) : string :=
  ("[" ++ join ", " (map (fun s => "'" ++ s ++ "'") l) ++ "]")%string.

Definition newline : string := String (ascii_of_nat 10) EmptyString.

Definition load_data (fs : FileSystem) (path : string) : result CsvTable :=
  if negb (path_exists fs path) then
    Raise (FileNotFoundError
             ("No se encontró el dataset en: " ++ path ++ newline ++
              "Descárgalo como 'spacex_launch_dash.csv' y colócalo en el mismo directorio que este script."))%string
  else
    match read_csv fs path with
    | Raise e => Raise e
    | Ok df =>
        let missing := missing_cols df in
        match missing with
        | _ :: _ =>
            Raise (ValueError ("Faltan columnas requeridas en el CSV: "
                                 ++ repr_list (sorted String.leb missing))%string)
        | [] => Ok df
        end
    end.

(** ** The dataset of the specification's scenarios *)

Definition launch (s : string) (o : Z) (p : Z) (b : string) : LaunchRecord :=
  mkRecord (Some s) (Some o) (Some (inject_Z p)) (Some b).

Definition scenario_df : DataFrame :=
  [ launch "A" 1 1000 "v1.0"; launch "A" 0 2000 "v1.1";
    launch "B" 1 3000 "FT";   launch "B" 1 4000 "B4" ].

(** A frame with holes: a launch without outcome, one without payload, one
    without site, and an outcome outside 0/1. *)
Definition ragged_df : DataFrame :=
  [ launch "A" 1 1000 "v1.0";
    mkRecord (Some "A") None (Some (inject_Z 2000)) (Some "v1.1");
    mkRecord (Some "A") (Some 0) None (Some "FT");
    mkRecord None (Some 1) (Some (inject_Z 500)) (Some "B4");
    launch "A" 2 3000 "B5"; launch "B" 1 4000 "B4" ].

(** ** Order-preserving selections *)

Inductive subseq {A : Type} : list A -> list A -> Prop :=
| subseq_nil : subseq [] []
| subseq_keep x l1 l2 : subseq l1 l2 -> subseq (x :: l1) (x :: l2)
| subseq_drop x l1 l2 : subseq l1 l2 -> subseq l1 (x :: l2).

Create HintDb frames.
#[local] Hint Constructors subseq : frames.

(** ** The filter predicates *)

(** The two tests as the masks compute them, row by row. *)
Definition in_range_b (low high : Q) (r : LaunchRecord) : bool :=
  match payload_mass r with
  | Some v => Qle_bool low v && Qle_bool v high
  | None => false
  end.

Definition at_site_b (s : string) (r : LaunchRecord) : bool :=
  match launch_site r with
  | Some v => String.eqb v s
  | None => false
  end.

Definition selected_b (s : string) (low high : Q) (r : LaunchRecord) : bool :=
  in_range_b low high r && (String.eqb s "ALL" || at_site_b s r).

(** The two tests as the specification words them. *)
Definition payload_in_range (low high : Q) (r : LaunchRecord) : Prop :=
  exists v, payload_mass r = Some v /\ (low <= v)%Q /\ (v <= high)%Q.

Definition site_accepts (s : string) (r : LaunchRecord) : Prop :=
  s = "ALL" \/ launch_site r = Some s.

(** ** Counting records *)

(** The records of a site, whatever their payload. *)
Definition site_records (df : DataFrame) (s : string) : DataFrame :=
  filter (at_site_b s) df.

Definition has_outcome (v : Z) (r : LaunchRecord) : bool :=
  match class r with Some c => Z.eqb c v | None => false end.

Definition outcome_present (r : LaunchRecord) : bool :=
  match class r with Some _ => true | None => false end.

(** The sum of the values that the rows of a pie attach to one label. *)
Definition slice_amount (lbl : option string) (row : Slice) : Z :=
  if label_eqb (fst row) lbl then
    match snd row with Some v => v | None => 0 end
  else 0.

Definition label_total (rows : list Slice) (lbl : option string) : Z :=
  sum_Z (map (slice_amount lbl) rows).

(** The sum of the outcome values present in a frame. *)
Definition outcome_sum (df : DataFrame) : Z :=
  sum_Z (Pandas.dropna (map class df)).

(** The label that the single-site mode gives to an outcome value. *)
Definition outcome_label (float_dtype : bool) (v : Z) : string :=
  if v =? 1 then "Success"
  else if v =? 0 then "Failure"
  else astype_str float_dtype v.

(** The rows of [outcome_counts] before the label column is added, and
    the same rows before the two sorts. *)
Definition class_counts (col : list (option Z)) : list (Z * nat) :=
  sort_values_class (value_counts col).

Definition distinct_counts (col : list (option Z)) : list (Z * nat) :=
  map (fun v => (v, occurrences v (Pandas.dropna col)))
      (Pandas.unique Z.eqb (Pandas.dropna col)).

(** The sum of all the values of a pie's rows. *)
Definition pie_total (rows : list Slice) : Z :=
  sum_Z (map (fun row => match snd row with Some v => v | None => 0 end) rows).

(** Present outcomes are 0 or 1, as the data model has them. *)
Definition binary_outcomes (df : DataFrame) : Prop :=
  forall r, In r df -> class r = None \/ class r = Some 0 \/ class r = Some 1.

(** ** Further predicates on records and tables *)

Definition payload_present (r : LaunchRecord) : bool :=
  match payload_mass r with Some _ => true | None => false end.


(** The required column names in Python's order on str. *)
Definition required_sorted : list string :=
  ["Booster Version Category"; "Launch Site"; "Payload Mass (kg)"; "class"].

(** * Properties *)

(** ** Masks and filters *)


Section Masks.
Context {A : Type}.
Implicit Types (p q : A -> bool) (l : list A).

Lemma boolean_index_map p l :
  Pandas.boolean_index l (map p l) = filter p l.
Proof.
  induction l as [|x l IH]; simpl; [reflexivity|].
  rewrite IH. reflexivity.
Qed.

Lemma mask_and_map p q l :
  Pandas.mask_and (map p l) (map q l) = map (fun x => p x && q x) l.
Proof.
  induction l as [|x l IH]; simpl; congruence.
Qed.

Lemma subseq_filter p l : subseq (filter p l) l.
Proof.
  induction l as [|x l IH]; simpl; [constructor|].
  destruct (p x); auto with frames.
Qed.

Lemma subseq_refl l : subseq l l.
Proof. induction l; auto with frames. Qed.

Lemma subseq_In l1 l2 : subseq l1 l2 -> forall x, In x l1 -> In x l2.
Proof.
  induction 1 as [|y l1 l2 _ IH|y l1 l2 _ IH]; simpl; intros x Hx; auto.
  destruct Hx as [->|Hx]; auto.
Qed.

Lemma subseq_trans l1 l2 l3 : subseq l1 l2 -> subseq l2 l3 -> subseq l1 l3.
Proof.
  intros H12 H23. revert l1 H12.
  induction H23 as [|y l2 l3 _ IH|y l2 l3 _ IH]; intros l1 H12; auto with frames.
  inversion H12; subst; auto with frames.
Qed.

(** Widening the predicate keeps every selected row, in place. *)
Lemma subseq_filter_weaken p q l :
  (forall x, In x l -> p x = true -> q x = true) ->
  subseq (filter p l) (filter q l).
Proof.
  induction l as [|x l IH]; simpl; intros Hpq; [constructor|].
  assert (IH' : subseq (filter p l) (filter q l)) by (apply IH; auto).
  destruct (p x) eqn:Hp.
  - rewrite (Hpq x (or_introl eq_refl) Hp). auto with frames.
  - destruct (q x); auto with frames.
Qed.

Lemma filter_filter p q l :
  filter q (filter p l) = filter (fun x => p x && q x) l.
Proof.
  induction l as [|x l IH]; simpl; [reflexivity|].
  destruct (p x); simpl; rewrite IH; reflexivity.
Qed.

Lemma filter_none p l :
  (forall x, In x l -> p x = false) -> filter p l = [].
Proof.
  induction l as [|x l IH]; simpl; intros H; [reflexivity|].
  rewrite (H x (or_introl eq_refl)). auto.
Qed.
End Masks.

Lemma in_range_b_iff low high r :
  in_range_b low high r = true <-> payload_in_range low high r.
Proof.
  unfold in_range_b, payload_in_range.
  destruct (payload_mass r) as [v|].
  - rewrite andb_true_iff, !Qle_bool_iff. split.
    + intros [Hl Hh]. exists v. auto.
    + intros (w & Hw & Hl & Hh). injection Hw as <-. auto.
  - split; [discriminate|]. intros (w & Hw & _). discriminate.
Qed.

Lemma at_site_b_iff s r : at_site_b s r = true <-> launch_site r = Some s.
Proof.
  unfold at_site_b. destruct (launch_site r) as [v|].
  - rewrite String.eqb_eq. split; congruence.
  - split; discriminate.
Qed.

Lemma selected_b_iff s low high r :
  selected_b s low high r = true <->
  payload_in_range low high r /\ site_accepts s r.
Proof.
  unfold selected_b, site_accepts.
  rewrite andb_true_iff, orb_true_iff, in_range_b_iff, at_site_b_iff,
    String.eqb_eq.
  reflexivity.
Qed.

Lemma payload_filter_spec df low high :
  payload_filter df low high = filter (in_range_b low high) df.
Proof.
  unfold payload_filter, Pandas.ge_scalar, Pandas.le_scalar.
  rewrite !map_map, mask_and_map, <- boolean_index_map.
  f_equal. apply map_ext. intros r. unfold in_range_b.
  destruct (payload_mass r); reflexivity.
Qed.

Lemma site_filter_spec df (s : string) :
  site_filter df s = filter (at_site_b s) df.
Proof.
  unfold site_filter, Pandas.eq_scalar.
  rewrite map_map, <- boolean_index_map. reflexivity.
Qed.

Lemma site_filter_none df : site_filter df PyNone = [].
Proof.
  unfold site_filter, Pandas.eq_scalar.
  rewrite map_map.
  transitivity (Pandas.boolean_index df (map (fun _ : LaunchRecord => false) df)).
  - f_equal. apply map_ext. intros r. destruct (launch_site r); reflexivity.
  - rewrite boolean_index_map. apply filter_none. reflexivity.
Qed.

Lemma filtered_view_spec df (s : string) low high :
  filtered_view df s low high = filter (selected_b s low high) df.
Proof.
  unfold filtered_view; cbn [is_all]. rewrite payload_filter_spec; cbn [is_all].
  destruct (String.eqb s "ALL") eqn:Hs; simpl.
  - apply filter_ext. intros r. unfold selected_b. rewrite Hs.
    now rewrite orb_true_l, andb_true_r.
  - rewrite site_filter_spec, filter_filter.
    apply filter_ext. intros r. unfold selected_b. now rewrite Hs.
Qed.

Lemma get_scatter_plot_eq df (s : SiteValue) low high :
  get_scatter_plot df s [low; high] =
  Ok (Px.scatter (filtered_view df s low high)
                 payload_mass class booster_version_category (scatter_title s)).
Proof.
  unfold get_scatter_plot, filtered_view, scatter_title. simpl.
  destruct (negb (is_all s)); reflexivity.
Qed.

(** The points of a scatter figure come from rows of its frame that have a
    colour, with the values of the row. *)
Lemma scatter_points_In (frame : DataFrame) title pt :
  In pt (points_of (Px.scatter frame payload_mass class
                               booster_version_category title)) ->
  exists r, In r frame /\ pt = project r
            /\ booster_version_category r <> None.
Proof.
  unfold Px.scatter, points_of. rewrite map_map. simpl.
  rewrite in_concat. intros (pts & Hpts & Hpt).
  apply in_map_iff in Hpts. destruct Hpts as (c & <- & _).
  apply in_map_iff in Hpt. destruct Hpt as (r & <- & Hr).
  apply filter_In in Hr. destruct Hr as [Hr Hc].
  exists r. split; [exact Hr|]. split; [reflexivity|].
  unfold Px.has_color in Hc. destruct (booster_version_category r); discriminate.
Qed.

Lemma scatter_points_nil (frame : DataFrame) title :
  frame = [] ->
  Px.scatter frame payload_mass class booster_version_category title
  = Scatter [] title.
Proof. intros ->. reflexivity. Qed.

Lemma filtered_view_none df low high : filtered_view df PyNone low high = [].
Proof. unfold filtered_view; cbn [is_all negb]. apply site_filter_none. Qed.

Lemma In_filtered_view df (s : string) low high r :
  In r (filtered_view df s low high) <->
  In r df /\ payload_in_range low high r /\ site_accepts s r.
Proof.
  rewrite filtered_view_spec, filter_In, selected_b_iff. reflexivity.
Qed.

Lemma project_payload r : fst (fst (project r)) = payload_mass r.
Proof. reflexivity. Qed.

(** ** The correlation projector *)

(** C1. For every dataset, site selection and payload range, the frame
    that [get_scatter_plot] hands to [px.scatter], with payload, outcome and
    booster category as its x, y and colour columns, holds exactly the
    records with low <= payload <= high and, unless the site is "ALL", with
    that site: one row per such record, with the record's own values, in
    the order of the dataset; every point of the figure is the tuple of one
    of these rows. *)
Theorem scatter_projects_selected_records
        (df : DataFrame) (s : string) (low high : Q) :
  exists rows title,
    get_scatter_plot df s [low; high]
    = Ok (Px.scatter rows payload_mass class booster_version_category title)
    /\ rows = filtered_view df s low high
    /\ rows = filter (selected_b s low high) df
    /\ (forall r, selected_b s low high r = true <->
                  payload_in_range low high r /\ site_accepts s r)
    /\ (forall r, In r rows <->
                  In r df /\ payload_in_range low high r /\ site_accepts s r)
    /\ (s = "ALL" -> forall r, site_accepts s r)
    /\ subseq rows df
    /\ List.length (map project rows)
       = List.length (filter (selected_b s low high) df)
    /\ (forall r, project r
                  = (payload_mass r, class r, booster_version_category r))
    /\ (forall pt,
           In pt (points_of (Px.scatter rows payload_mass class
                                        booster_version_category title)) ->
           exists r, In r rows /\ pt = project r).
Proof.
  exists (filtered_view df s low high), (scatter_title s).
  split; [apply get_scatter_plot_eq|].
  split; [reflexivity|].
  split; [apply filtered_view_spec|].
  split; [intros r; apply selected_b_iff|].
  split; [intros r; apply In_filtered_view|].
  split; [intros Hs r; left; exact Hs|].
  split; [rewrite filtered_view_spec; apply subseq_filter|].
  split; [rewrite length_map, filtered_view_spec; reflexivity|].
  split; [reflexivity|].
  intros pt Hpt. apply scatter_points_In in Hpt.
  destruct Hpt as (r & Hr & E & _). eauto.
Qed.

(** ** The filter engine *)

Lemma in_range_b_widen low high low' high' r :
  (low' <= low)%Q -> (high <= high')%Q ->
  in_range_b low high r = true -> in_range_b low' high' r = true.
Proof.
  intros Hl Hh. rewrite !in_range_b_iff.
  intros (v & Hv & H1 & H2). exists v. split; [exact Hv|].
  split; eapply Qle_trans; eauto.
Qed.

Lemma selected_b_widen s low high low' high' r :
  (low' <= low)%Q -> (high <= high')%Q ->
  selected_b s low high r = true -> selected_b s low' high' r = true.
Proof.
  intros Hl Hh. unfold selected_b. rewrite !andb_true_iff.
  intros [H1 H2]. split; [|exact H2].
  eapply in_range_b_widen; eauto.
Qed.

(** C5. For low <= high, the payload filter returns exactly the records
    with low <= payload <= high, and every record it returns is returned
    (in the same relative order) by the filter of any wider range, for the
    payload mask alone and for the whole filtered view of any site. *)
Theorem filter_monotone_under_widening
        (df : DataFrame) (s : string) (low high low' high' : Q) :
  (low <= high)%Q -> (low' <= low)%Q -> (high <= high')%Q ->
  payload_filter df low high = filter (in_range_b low high) df
  /\ (forall r, In r (payload_filter df low high) <->
                In r df /\ payload_in_range low high r)
  /\ subseq (payload_filter df low high) (payload_filter df low' high')
  /\ (forall r, In r (payload_filter df low high) ->
                In r (payload_filter df low' high'))
  /\ subseq (filtered_view df s low high) (filtered_view df s low' high')
  /\ (forall r, In r (filtered_view df s low high) ->
                In r (filtered_view df s low' high')).
Proof.
  intros _ Hl Hh.
  assert (Hp : subseq (payload_filter df low high) (payload_filter df low' high')).
  { rewrite !payload_filter_spec. apply subseq_filter_weaken.
    intros r _. now apply in_range_b_widen. }
  assert (Hv : subseq (filtered_view df s low high) (filtered_view df s low' high')).
  { rewrite !filtered_view_spec. apply subseq_filter_weaken.
    intros r _. now apply selected_b_widen. }
  split; [apply payload_filter_spec|].
  split.
  { intros r. rewrite payload_filter_spec, filter_In, in_range_b_iff.
    reflexivity. }
  split; [exact Hp|].
  split; [apply subseq_In; exact Hp|].
  split; [exact Hv|].
  apply subseq_In; exact Hv.
Qed.

Lemma filter_monotone_witness :
  (1500 # 1 <= 3500 # 1)%Q /\ (0 # 1 <= 1500 # 1)%Q /\ (3500 # 1 <= 10000 # 1)%Q
  /\ subseq (filtered_view scenario_df "ALL" (1500 # 1) (3500 # 1))
            (filtered_view scenario_df "ALL" (0 # 1) (10000 # 1)).
Proof.
  assert (H1 : (1500 # 1 <= 3500 # 1)%Q) by (unfold Qle; simpl; lia).
  assert (H2 : (0 # 1 <= 1500 # 1)%Q) by (unfold Qle; simpl; lia).
  assert (H3 : (3500 # 1 <= 10000 # 1)%Q) by (unfold Qle; simpl; lia).
  repeat split; try assumption.
  apply (filter_monotone_under_widening scenario_df "ALL" _ _ _ _ H1 H2 H3).
Defined.

(** C6. For a two-valued payload range the scatter callback always returns
    a figure; when low > high, and whenever no record passes both tests,
    the filtered view and the projection are empty. *)
Theorem scatter_never_raises (df : DataFrame) (s : string) (low high : Q) :
  exists fig,
    get_scatter_plot df s [low; high] = Ok fig
    /\ success_payload_scatter_chart df (mkControl s [low; high]) = Ok fig
    /\ ((high < low)%Q ->
        filtered_view df s low high = [] /\ points_of fig = [])
    /\ ((forall r, In r df ->
                   ~ (payload_in_range low high r /\ site_accepts s r)) ->
        filtered_view df s low high = [] /\ points_of fig = []).
Proof.
  exists (Px.scatter (filtered_view df s low high)
                     payload_mass class booster_version_category
                     (scatter_title s)).
  assert (Hempty : (forall r, In r df ->
                      ~ (payload_in_range low high r /\ site_accepts s r)) ->
                   filtered_view df s low high = []).
  { intros Hnone. rewrite filtered_view_spec. apply filter_none.
    intros r Hr. destruct (selected_b s low high r) eqn:Hsel; [|reflexivity].
    apply selected_b_iff in Hsel. elim (Hnone r Hr Hsel). }
  split; [apply get_scatter_plot_eq|].
  split; [apply get_scatter_plot_eq|].
  assert (Hpts : filtered_view df s low high = [] ->
                 filtered_view df s low high = []
                 /\ points_of (Px.scatter (filtered_view df s low high)
                                          payload_mass class
                                          booster_version_category
                                          (scatter_title s)) = []).
  { intros E. split; [exact E|]. rewrite E. reflexivity. }
  split.
  - intros Hlt. apply Hpts, Hempty.
    intros r _ [(v & _ & Hl & Hh) _].
    apply (Qlt_not_le _ _ Hlt). eapply Qle_trans; eauto.
  - intros Hnone. apply Hpts, Hempty, Hnone.
Qed.

(** C10. A record without payload mass fails the range test of every
    payload range, so it is in no filtered view and its tuple is in no
    correlation projection, whatever the site selection. *)
Theorem missing_payload_never_plotted
        (df : DataFrame) (s : string) (low high : Q) (r : LaunchRecord) :
  payload_mass r = None ->
  in_range_b low high r = false
  /\ ~ payload_in_range low high r
  /\ ~ In r (payload_filter df low high)
  /\ ~ In r (filtered_view df s low high)
  /\ exists fig,
       get_scatter_plot df s [low; high] = Ok fig
       /\ ~ In (project r) (points_of fig)
       /\ Forall (fun pt => fst (fst pt) <> None) (points_of fig).
Proof.
  intros Hnan.
  assert (Hb : in_range_b low high r = false)
    by (unfold in_range_b; rewrite Hnan; reflexivity).
  assert (Hp : ~ payload_in_range low high r).
  { intros H. apply in_range_b_iff in H. congruence. }
  assert (Hall : Forall (fun pt : Point => fst (fst pt) <> None)
                        (points_of
                           (Px.scatter (filtered_view df s low high)
                                       payload_mass class
                                       booster_version_category
                                       (scatter_title s)))).
  { apply Forall_forall. intros pt Hpt.
    apply scatter_points_In in Hpt. destruct Hpt as (r' & Hr' & -> & _).
    apply In_filtered_view in Hr'. destruct Hr' as (_ & (v & Hv & _) & _).
    rewrite project_payload, Hv. discriminate. }
  split; [exact Hb|]. split; [exact Hp|].
  split.
  { rewrite payload_filter_spec, filter_In. intros [_ H]. congruence. }
  split.
  { rewrite In_filtered_view. intros (_ & H & _). exact (Hp H). }
  eexists. split; [apply get_scatter_plot_eq|]. split; [|exact Hall].
  intros Hin. rewrite Forall_forall in Hall. apply (Hall _ Hin).
  rewrite project_payload. exact Hnan.
Qed.

Lemma missing_payload_witness :
  payload_mass (mkRecord (Some "A") (Some 0) None (Some "FT")) = None
  /\ ~ In (mkRecord (Some "A") (Some 0) None (Some "FT"))
          (filtered_view ragged_df "A" (0 # 1) (10000 # 1)).
Proof.
  split; [reflexivity|].
  apply (missing_payload_never_plotted ragged_df "A" (0 # 1) (10000 # 1)
           (mkRecord (Some "A") (Some 0) None (Some "FT")) eq_refl).
Defined.

(** ** Sorting *)

Section SortedFacts.
Context {A : Type} (leb : A -> A -> bool).

Lemma insert_sorted_perm x l : Permutation (insert_sorted leb x l) (x :: l).
Proof.
  induction l as [|y l IH]; simpl; [reflexivity|].
  destruct (leb x y); [reflexivity|].
  rewrite IH. apply perm_swap.
Qed.

Lemma sorted_perm l : Permutation (sorted leb l) l.
Proof.
  induction l as [|x l IH]; simpl; [reflexivity|].
  rewrite insert_sorted_perm. now apply perm_skip.
Qed.

Lemma sorted_In l x : In x (sorted leb l) <-> In x l.
Proof.
  split; apply Permutation_in;
    [apply sorted_perm | apply Permutation_sym, sorted_perm].
Qed.

Hypothesis leb_total : forall a b, leb a b = true \/ leb b a = true.
Hypothesis leb_trans :
  forall a b c, leb a b = true -> leb b c = true -> leb a c = true.

Local Abbreviation le := (fun a b : A => leb a b = true).

Lemma insert_sorted_sorted x l :
  StronglySorted le l -> StronglySorted le (insert_sorted leb x l).
Proof.
  induction 1 as [|y l Hs IH Hy]; simpl.
  - repeat constructor.
  - destruct (leb x y) eqn:Hxy.
    + constructor; [constructor; assumption|].
      constructor; [exact Hxy|].
      rewrite Forall_forall in *. intros z Hz.
      apply (leb_trans _ y); [exact Hxy|]. now apply Hy.
    + constructor; [exact IH|].
      rewrite Forall_forall in *. intros z Hz.
      apply (Permutation_in _ (insert_sorted_perm x l)) in Hz.
      destruct Hz as [<-|Hz]; [|now apply Hy].
      destruct (leb_total x y) as [H|H]; [congruence|exact H].
Qed.

Lemma sorted_sorted l : StronglySorted le (sorted leb l).
Proof.
  induction l as [|x l IH]; simpl; [constructor|].
  now apply insert_sorted_sorted.
Qed.
End SortedFacts.

Lemma StronglySorted_map {A B : Type} (f : A -> B) (R : B -> B -> Prop) l :
  StronglySorted (fun a b => R (f a) (f b)) l -> StronglySorted R (map f l).
Proof.
  induction 1 as [|x l _ IH Hx]; simpl; constructor; [exact IH|].
  rewrite Forall_forall in *. intros y Hy.
  apply in_map_iff in Hy. destruct Hy as (a & <- & Ha). now apply Hx.
Qed.

(** A sorted list without repetition is strictly sorted. *)
Lemma StronglySorted_strict {A : Type} (R S : A -> A -> Prop) l :
  (forall a b, R a b -> a <> b -> S a b) ->
  NoDup l -> StronglySorted R l -> StronglySorted S l.
Proof.
  intros HRS Hnd Hs. induction Hs as [|x l _ IH Hx]; constructor.
  - apply IH. now inversion Hnd.
  - inversion Hnd as [|? ? Hnotin _]; subst.
    rewrite Forall_forall in *. intros y Hy.
    apply HRS; [now apply Hx|]. intros ->. contradiction.
Qed.

(** ** [unique] *)

Section UniqueFacts.
Context {A : Type} (eqb : A -> A -> bool).
Hypothesis eqb_eq : forall x y, eqb x y = true <-> x = y.

Lemma existsb_eqb x seen : existsb (eqb x) seen = true <-> In x seen.
Proof.
  rewrite existsb_exists. split.
  - intros (y & Hy & E). apply eqb_eq in E. now subst.
  - intros H. exists x. split; [exact H|]. now apply eqb_eq.
Qed.

Lemma unique_acc_In seen l x :
  In x (Pandas.unique_acc eqb seen l) <-> In x l /\ ~ In x seen.
Proof.
  revert seen. induction l as [|y l IH]; intros seen; simpl.
  - tauto.
  - destruct (existsb (eqb y) seen) eqn:E.
    + apply existsb_eqb in E. rewrite IH. split.
      * tauto.
      * intros [[->|H] Hn]; tauto.
    + assert (Hy : ~ In y seen).
      { intros H. apply existsb_eqb in H. congruence. }
      simpl. rewrite IH. simpl. split.
      * intros [->|[H Hn]]; [tauto|]. split; [tauto|]. tauto.
      * intros [[->|H] Hn]; [tauto|].
        destruct (eqb y x) eqn:Eyx.
        -- apply eqb_eq in Eyx. tauto.
        -- right. split; [exact H|]. intros [->|H']; [|tauto].
           assert (eqb x x = true) by now apply eqb_eq. congruence.
Qed.

Lemma unique_acc_NoDup seen l : NoDup (Pandas.unique_acc eqb seen l).
Proof.
  revert seen. induction l as [|y l IH]; intros seen; simpl.
  - constructor.
  - destruct (existsb (eqb y) seen); [apply IH|].
    constructor; [|apply IH].
    rewrite unique_acc_In. simpl. tauto.
Qed.

Lemma unique_In l x : In x (Pandas.unique eqb l) <-> In x l.
Proof. unfold Pandas.unique. rewrite unique_acc_In. simpl. tauto. Qed.

Lemma unique_NoDup l : NoDup (Pandas.unique eqb l).
Proof. apply unique_acc_NoDup. Qed.
End UniqueFacts.

Lemma dropna_In {A : Type} (col : list (option A)) (v : A) :
  In v (Pandas.dropna col) <-> In (Some v) col.
Proof.
  induction col as [|[w|] col IH]; simpl.
  - tauto.
  - rewrite IH. split; intros [H|H]; auto; left; congruence.
  - rewrite IH. split; [auto|]. intros [H|H]; [discriminate|exact H].
Qed.

(** ** [value_counts] *)

Lemma occurrences_cons v x vals :
  occurrences v (x :: vals)
  = ((if Z.eqb v x then 1 else 0) + occurrences v vals)%nat.
Proof. unfold occurrences. simpl. now destruct (Z.eqb v x). Qed.

Lemma indicator_sum_notin x u :
  ~ In x u -> list_sum (map (fun v => if Z.eqb v x then 1 else 0)%nat u) = 0%nat.
Proof.
  induction u as [|y u IH]; simpl; intros Hn; [reflexivity|].
  destruct (Z.eqb_spec y x) as [->|_]; [tauto|].
  rewrite IH; tauto.
Qed.

Lemma indicator_sum_in x u :
  NoDup u -> In x u ->
  list_sum (map (fun v => if Z.eqb v x then 1 else 0)%nat u) = 1%nat.
Proof.
  induction 1 as [|y u Hy Hnd IH]; simpl; [tauto|].
  intros [->|Hx].
  - rewrite Z.eqb_refl, indicator_sum_notin; auto.
  - destruct (Z.eqb_spec y x) as [->|_]; [contradiction|]. now apply IH.
Qed.

(** Counting each distinct value once accounts for every value. *)
Lemma occurrences_total u vals :
  NoDup u -> (forall x, In x vals -> In x u) ->
  list_sum (map (fun v => occurrences v vals) u) = List.length vals.
Proof.
  intros Hnd. induction vals as [|x vals IH]; intros Hcov.
  - unfold occurrences. simpl. clear. induction u; simpl; auto.
  - change (List.length (x :: vals)) with (1 + List.length vals)%nat.
    rewrite <- IH by (intros y Hy; apply Hcov; now right).
    rewrite <- (indicator_sum_in x u Hnd (Hcov x (or_introl eq_refl))).
    clear. induction u as [|v u IHu]; simpl; [reflexivity|].
    rewrite occurrences_cons, IHu. lia.
Qed.

Lemma class_counts_perm col :
  Permutation (class_counts col) (distinct_counts col).
Proof.
  unfold class_counts, sort_values_class, value_counts.
  rewrite !sorted_perm. reflexivity.
Qed.

Lemma distinct_counts_fst col :
  map fst (distinct_counts col) = Pandas.unique Z.eqb (Pandas.dropna col).
Proof.
  unfold distinct_counts. rewrite map_map. simpl. apply map_id.
Qed.

Lemma class_counts_NoDup col : NoDup (map fst (class_counts col)).
Proof.
  eapply Permutation_NoDup.
  - apply Permutation_sym, Permutation_map, class_counts_perm.
  - rewrite distinct_counts_fst. apply unique_NoDup. apply Z.eqb_eq.
Qed.

Lemma class_counts_values col v :
  In v (map fst (class_counts col)) <-> In (Some v) col.
Proof.
  transitivity (In v (map fst (distinct_counts col))).
  - split; apply Permutation_in, Permutation_map;
      [|apply Permutation_sym]; apply class_counts_perm.
  - rewrite distinct_counts_fst, (unique_In Z.eqb Z.eqb_eq). apply dropna_In.
Qed.

Lemma class_counts_count col row :
  In row (class_counts col) ->
  snd row = occurrences (fst row) (Pandas.dropna col).
Proof.
  intros H. apply (Permutation_in _ (class_counts_perm col)) in H.
  unfold distinct_counts in H. apply in_map_iff in H.
  destruct H as (v & <- & _). reflexivity.
Qed.

Lemma class_counts_ascending col :
  StronglySorted Z.lt (map fst (class_counts col)).
Proof.
  apply (StronglySorted_strict (fun a b => Z.leb a b = true)).
  - intros a b. rewrite Z.leb_le. lia.
  - apply class_counts_NoDup.
  - apply StronglySorted_map. unfold class_counts, sort_values_class.
    apply (sorted_sorted (fun a b : Z * nat => Z.leb (fst a) (fst b))).
    + intros a b. rewrite !Z.leb_le. lia.
    + intros a b c. rewrite !Z.leb_le. lia.
Qed.

Lemma class_counts_total col :
  list_sum (map snd (class_counts col)) = List.length (Pandas.dropna col).
Proof.
  rewrite (Permutation_list_sum
             (Permutation_map snd (class_counts_perm col))).
  unfold distinct_counts. rewrite map_map. simpl.
  apply occurrences_total.
  - apply unique_NoDup, Z.eqb_eq.
  - intros x. apply (unique_In Z.eqb Z.eqb_eq).
Qed.

(** Counting in the [class] column of a frame is counting records. *)
Lemma occurrences_records v (rows : DataFrame) :
  occurrences v (Pandas.dropna (map class rows))
  = List.length (filter (has_outcome v) rows).
Proof.
  induction rows as [|r rows IH]; [reflexivity|].
  simpl. unfold has_outcome at 1. destruct (class r) as [c|]; simpl.
  - rewrite occurrences_cons, IH, (Z.eqb_sym v c).
    destruct (Z.eqb c v); reflexivity.
  - exact IH.
Qed.

Lemma dropna_class_length (rows : DataFrame) :
  List.length (Pandas.dropna (map class rows))
  = List.length (filter outcome_present rows).
Proof.
  induction rows as [|r rows IH]; [reflexivity|].
  simpl. unfold outcome_present at 1.
  destruct (class r); simpl; rewrite IH; reflexivity.
Qed.

(** ** The single-site mode of the outcome aggregator *)

Lemma outcome_counts_eq df (s : string) :
  outcome_counts df s
  = map (fun vc => mkOutcomeCount (fst vc) (snd vc)
                     (outcome_label (class_is_float df) (fst vc)))
        (class_counts (map class (site_records df s))).
Proof.
  unfold outcome_counts, class_counts, site_records.
  rewrite site_filter_spec. apply map_ext. intros [v c]. simpl.
  unfold outcome_label, outcome_names.
  destruct (Z.eqb_spec v 1) as [->|H1]; [reflexivity|].
  destruct (v =? 0); reflexivity.
Qed.

Lemma outcome_counts_classes df (s : string) :
  map oc_class (outcome_counts df s)
  = map fst (class_counts (map class (site_records df s))).
Proof. rewrite outcome_counts_eq, map_map. reflexivity. Qed.

Lemma site_records_In df (s : string) r :
  In r (site_records df s) <-> In r df /\ launch_site r = Some s.
Proof. unfold site_records. now rewrite filter_In, at_site_b_iff. Qed.

Lemma outcome_counts_row df (s : string) row :
  In row (outcome_counts df s) ->
  oc_count row
  = List.length (filter (has_outcome (oc_class row)) (site_records df s))
  /\ oc_Outcome row = outcome_label (class_is_float df) (oc_class row)
  /\ exists r, In r df /\ launch_site r = Some s
               /\ class r = Some (oc_class row).
Proof.
  rewrite outcome_counts_eq. intros H. apply in_map_iff in H.
  destruct H as ([v c] & <- & Hin). simpl.
  split; [|split; [reflexivity|]].
  - rewrite <- occurrences_records. exact (class_counts_count _ _ Hin).
  - assert (Hv : In v (map fst (class_counts (map class (site_records df s)))))
      by (apply in_map_iff; exists (v, c); auto).
    apply class_counts_values, in_map_iff in Hv.
    destruct Hv as (r & Hc & Hr). apply site_records_In in Hr.
    exists r. tauto.
Qed.

Lemma get_pie_chart_site df (s : string) :
  s <> "ALL" ->
  get_pie_chart df s
  = Pie (map (fun row => (Some (oc_Outcome row), Some (Z.of_nat (oc_count row))))
             (outcome_counts df s))
        ("Total Launch Outcomes for site " ++ s)%string.
Proof.
  intros Hs. unfold get_pie_chart, Px.pie. cbn [is_all format_site].
  apply String.eqb_neq in Hs. rewrite Hs. reflexivity.
Qed.

Lemma pie_total_counts (rows : list OutcomeCount) :
  pie_total (map (fun row => (Some (oc_Outcome row), Some (Z.of_nat (oc_count row))))
                 rows)
  = Z.of_nat (list_sum (map oc_count rows)).
Proof.
  unfold pie_total. induction rows as [|row rows IH]; [reflexivity|].
  simpl in *. rewrite IH. lia.
Qed.

Lemma outcome_counts_total df (s : string) :
  list_sum (map oc_count (outcome_counts df s))
  = List.length (filter outcome_present (site_records df s)).
Proof.
  rewrite outcome_counts_eq, map_map. simpl.
  rewrite <- dropna_class_length, <- class_counts_total.
  reflexivity.
Qed.

(** The labels "Success" and "Failure" are those of 1 and 0 only. *)
Lemma astype_str_first float_dtype v :
  exists c rest, astype_str float_dtype v = String c rest
                 /\ c <> "S"%char /\ c <> "F"%char.
Proof.
  unfold astype_str.
  destruct (Z.to_int v) as [u|u]; simpl.
  - destruct u; simpl;
      eexists; eexists; (split; [reflexivity|split; discriminate]).
  - eexists; eexists; (split; [reflexivity|split; discriminate]).
Qed.

Lemma outcome_label_success float_dtype v :
  outcome_label float_dtype v = "Success" <-> v = 1.
Proof.
  unfold outcome_label.
  destruct (Z.eqb_spec v 1) as [->|H1]; [tauto|].
  destruct (Z.eqb_spec v 0) as [->|H0].
  - split; [discriminate|lia].
  - destruct (astype_str_first float_dtype v) as (c & rest & -> & Hc & _).
    split; [|tauto]. intros E. injection E as E _. contradiction.
Qed.

Lemma outcome_label_failure float_dtype v :
  outcome_label float_dtype v = "Failure" <-> v = 0.
Proof.
  unfold outcome_label.
  destruct (Z.eqb_spec v 1) as [->|H1]; [split; [discriminate|lia]|].
  destruct (Z.eqb_spec v 0) as [->|H0]; [tauto|].
  destruct (astype_str_first float_dtype v) as (c & rest & -> & _ & Hc).
  split; [|tauto]. intros E. injection E as E _. contradiction.
Qed.

Lemma occurrences_absent v vals : ~ In v vals -> occurrences v vals = 0%nat.
Proof.
  unfold occurrences. intros Hn.
  rewrite (filter_none (Z.eqb v) vals); [reflexivity|].
  intros x Hx. apply Z.eqb_neq. intros ->. contradiction.
Qed.

(** In a table keyed by distinct values, the rows selected by one key sum
    to that key's entry. *)
Lemma keyed_sum (f : Z -> nat) (v : Z) (cc : list (Z * nat)) :
  NoDup (map fst cc) ->
  (forall row, In row cc -> snd row = f (fst row)) ->
  list_sum (map (fun row => if Z.eqb (fst row) v then snd row else 0%nat) cc)
  = if existsb (Z.eqb v) (map fst cc) then f v else 0%nat.
Proof.
  induction cc as [|[w c] cc IH]; simpl; intros Hnd Hf; [reflexivity|].
  inversion Hnd as [|? ? Hw Hnd']; subst.
  rewrite IH by auto. rewrite (Z.eqb_sym v w).
  destruct (Z.eqb_spec w v) as [->|Hwv]; simpl; [|reflexivity].
  assert (Hc := Hf (v, c) (or_introl eq_refl)). simpl in Hc. rewrite Hc.
  destruct (existsb (Z.eqb v) (map fst cc)) eqn:E; [|lia].
  apply (existsb_eqb Z.eqb Z.eqb_eq) in E. contradiction.
Qed.

(** The value that the single-site figure attaches to the label of [v] is
    the number of the site's records whose outcome is [v], as long as no
    other value shares the label. *)
Lemma label_total_site df (s : string) lbl v :
  (forall w, outcome_label (class_is_float df) w = lbl <-> w = v) ->
  label_total
    (map (fun row => (Some (oc_Outcome row), Some (Z.of_nat (oc_count row))))
         (outcome_counts df s))
    (Some lbl)
  = Z.of_nat (List.length (filter (has_outcome v) (site_records df s))).
Proof.
  intros Hlbl. rewrite outcome_counts_eq, map_map. simpl.
  set (cc := class_counts (map class (site_records df s))).
  transitivity
    (Z.of_nat (list_sum (map (fun row : Z * nat =>
                                if Z.eqb (fst row) v then snd row else 0%nat) cc))).
  - unfold label_total. induction cc as [|[w c] cc IH]; [reflexivity|].
    simpl in *. rewrite IH. unfold slice_amount at 1. simpl.
    destruct (Z.eqb_spec w v) as [->|Hwv].
    + rewrite (proj2 (Hlbl v) eq_refl), String.eqb_refl. lia.
    + destruct (String.eqb_spec (outcome_label (class_is_float df) w) lbl) as [E|_].
      * apply Hlbl in E. contradiction.
      * lia.
  - f_equal.
    rewrite (keyed_sum (fun w => occurrences w
                                   (Pandas.dropna (map class (site_records df s))))).
    + rewrite <- occurrences_records.
      destruct (existsb (Z.eqb v) (map fst cc)) eqn:E; [reflexivity|].
      symmetry. apply occurrences_absent. intros Hin.
      apply dropna_In, class_counts_values in Hin.
      apply (existsb_eqb Z.eqb Z.eqb_eq) in Hin. fold cc in Hin. congruence.
    + apply class_counts_NoDup.
    + intros row. apply class_counts_count.
Qed.

Lemma binary_partition (rows : DataFrame) :
  (forall r, In r rows -> class r = Some 0 \/ class r = Some 1) ->
  List.length rows
  = (List.length (filter (has_outcome 1) rows)
     + List.length (filter (has_outcome 0) rows))%nat.
Proof.
  induction rows as [|r rows IH]; intros H; [reflexivity|].
  assert (Hr : has_outcome 1 r = true /\ has_outcome 0 r = false
               \/ has_outcome 1 r = false /\ has_outcome 0 r = true).
  { unfold has_outcome.
    destruct (H r (or_introl eq_refl)) as [-> | ->]; auto. }
  simpl. rewrite IH by (intros r' Hr'; apply H; now right).
  destruct Hr as [[-> ->]|[-> ->]]; simpl; lia.
Qed.

(** C3. For a concrete site, the pie has one slice per outcome value
    present among the site's records (payload plays no part), in ascending
    order of the value; the slice of a value counts the site's records with
    that outcome and is labelled "Success" for 1, "Failure" for 0 and by the
    value's string form otherwise; when the site's outcomes are all 0 or 1,
    the "Success" and "Failure" counts add up to the site's record count. *)
Theorem single_site_outcome_counts (df : DataFrame) (s : string) :
  s <> "ALL" ->
  let rows := outcome_counts df s in
  let fig := get_pie_chart df s in
  fig = Pie (map (fun row => (Some (oc_Outcome row), Some (Z.of_nat (oc_count row))))
                 rows)
            ("Total Launch Outcomes for site " ++ s)%string
  /\ (forall payload_range,
         success_pie_chart df (mkControl s payload_range) = fig)
  /\ StronglySorted Z.lt (map oc_class rows)
  /\ (forall v, In v (map oc_class rows) <->
                exists r, In r df /\ launch_site r = Some s /\ class r = Some v)
  /\ (forall row, In row rows ->
        oc_count row
        = List.length (filter (has_outcome (oc_class row)) (site_records df s))
        /\ oc_Outcome row
           = if oc_class row =? 1 then "Success"
             else if oc_class row =? 0 then "Failure"
             else astype_str (class_is_float df) (oc_class row))
  /\ label_total (slices_of fig) (Some "Success")
     = Z.of_nat (List.length (filter (has_outcome 1) (site_records df s)))
  /\ label_total (slices_of fig) (Some "Failure")
     = Z.of_nat (List.length (filter (has_outcome 0) (site_records df s)))
  /\ ((forall r, In r df -> launch_site r = Some s ->
                 class r = Some 0 \/ class r = Some 1) ->
      label_total (slices_of fig) (Some "Success")
      + label_total (slices_of fig) (Some "Failure")
      = Z.of_nat (List.length (site_records df s))).
Proof.
  intros Hs rows fig.
  assert (Hfig := get_pie_chart_site df s Hs). fold fig rows in Hfig.
  assert (H1 : label_total (slices_of fig) (Some "Success")
               = Z.of_nat (List.length (filter (has_outcome 1) (site_records df s)))).
  { rewrite Hfig. simpl. apply label_total_site.
    intros w. apply outcome_label_success. }
  assert (H0 : label_total (slices_of fig) (Some "Failure")
               = Z.of_nat (List.length (filter (has_outcome 0) (site_records df s)))).
  { rewrite Hfig. simpl. apply label_total_site.
    intros w. apply outcome_label_failure. }
  split; [exact Hfig|].
  split; [reflexivity|].
  split.
  { unfold rows. rewrite outcome_counts_classes. apply class_counts_ascending. }
  split.
  { intros v. unfold rows.
    rewrite outcome_counts_classes, class_counts_values, in_map_iff.
    split.
    - intros (r & Hc & Hr). apply site_records_In in Hr. exists r. tauto.
    - intros (r & Hr & Hsite & Hc). exists r. split; [exact Hc|].
      apply site_records_In. tauto. }
  split.
  { intros row Hrow. destruct (outcome_counts_row df s row Hrow) as (Hc & Hl & _).
    split; [exact Hc|exact Hl]. }
  split; [exact H1|]. split; [exact H0|].
  intros Hbin. rewrite H1, H0, <- Nat2Z.inj_add. f_equal.
  symmetry. apply binary_partition.
  intros r Hr. apply site_records_In in Hr. now apply Hbin.
Qed.

Lemma single_site_witness :
  "A" <> "ALL"
  /\ StronglySorted Z.lt (map oc_class (outcome_counts scenario_df "A"))
  /\ label_total (slices_of (get_pie_chart scenario_df "A")) (Some "Success")
     + label_total (slices_of (get_pie_chart scenario_df "A")) (Some "Failure")
     = Z.of_nat (List.length (site_records scenario_df "A")).
Proof.
  assert (Hs : "A" <> "ALL") by discriminate.
  destruct (single_site_outcome_counts scenario_df "A" Hs)
    as (_ & _ & Hsorted & _ & _ & _ & _ & Hsum).
  split; [exact Hs|]. split; [exact Hsorted|].
  apply Hsum. intros r Hr _. simpl in Hr.
  destruct Hr as [<-|[<-|[<-|[<-|[]]]]]; simpl; auto.
Defined.

(** C9. In single-site mode a record of the site without outcome gets no
    slice and no label, and the function still returns its figure: every
    slice stands for an outcome value that some record of the site carries,
    and the slice values add up to the number of the site's records that
    have an outcome, the records without one being left out. *)
Theorem missing_outcome_not_counted (df : DataFrame) (s : string) :
  s <> "ALL" ->
  let fig := get_pie_chart df s in
  fig = Pie (map (fun row => (Some (oc_Outcome row), Some (Z.of_nat (oc_count row))))
                 (outcome_counts df s))
            ("Total Launch Outcomes for site " ++ s)%string
  /\ (forall row, In row (outcome_counts df s) ->
        oc_Outcome row = outcome_label (class_is_float df) (oc_class row)
        /\ exists r, In r df /\ launch_site r = Some s
                     /\ class r = Some (oc_class row))
  /\ pie_total (slices_of fig)
     = Z.of_nat (List.length (filter outcome_present (site_records df s)))
  /\ (pie_total (slices_of fig)
      + Z.of_nat (List.length
                    (filter (fun r => negb (outcome_present r)) (site_records df s)))
      = Z.of_nat (List.length (site_records df s))).
Proof.
  intros Hs fig.
  assert (Hfig := get_pie_chart_site df s Hs). fold fig in Hfig.
  assert (Htot : pie_total (slices_of fig)
                 = Z.of_nat (List.length
                               (filter outcome_present (site_records df s)))).
  { rewrite Hfig. simpl. rewrite pie_total_counts, outcome_counts_total.
    reflexivity. }
  split; [exact Hfig|].
  split.
  { intros row Hrow. destruct (outcome_counts_row df s row Hrow) as (_ & Hl & Hr).
    split; assumption. }
  split; [exact Htot|].
  rewrite Htot, <- Nat2Z.inj_add. f_equal. apply filter_length.
Qed.

Lemma missing_outcome_witness :
  "A" <> "ALL"
  /\ pie_total (slices_of (get_pie_chart ragged_df "A"))
     = Z.of_nat (List.length (filter outcome_present (site_records ragged_df "A")))
  /\ List.length (filter outcome_present (site_records ragged_df "A")) = 3%nat
  /\ List.length (site_records ragged_df "A") = 4%nat.
Proof.
  assert (Hs : "A" <> "ALL") by discriminate.
  destruct (missing_outcome_not_counted ragged_df "A" Hs) as (_ & _ & Htot & _).
  split; [exact Hs|]. split; [exact Htot|]. split; reflexivity.
Defined.

(** ** The all-sites mode of the outcome aggregator *)

Lemma label_eqb_eq a b : label_eqb a b = true <-> a = b.
Proof.
  destruct a as [x|], b as [y|]; simpl;
    try (split; [discriminate|congruence]); [|tauto].
  rewrite String.eqb_eq. split; congruence.
Qed.

Lemma label_eqb_refl a : label_eqb a a = true.
Proof. now apply label_eqb_eq. Qed.

Section Sectors.
Implicit Types (acc : list (option string * Z)) (rows : list Slice).

Lemma sector_value_add l v acc lbl :
  sector_value (add_sector l v acc) lbl
  = sector_value acc lbl + (if label_eqb l lbl then v else 0).
Proof.
  induction acc as [|[l0 s0] acc IH]; simpl.
  - destruct (label_eqb l lbl); lia.
  - destruct (label_eqb l0 l) eqn:E0; simpl.
    + apply label_eqb_eq in E0. subst l0.
      destruct (label_eqb l lbl); lia.
    + destruct (label_eqb l0 lbl) eqn:E1; [|exact IH].
      apply label_eqb_eq in E1. subst l0.
      destruct (label_eqb l lbl) eqn:E2; [|lia].
      apply label_eqb_eq in E2. subst l.
      rewrite label_eqb_refl in E0. discriminate.
Qed.

Lemma add_sector_labels l v acc lbl :
  In lbl (map fst (add_sector l v acc)) <-> lbl = l \/ In lbl (map fst acc).
Proof.
  induction acc as [|[l0 s0] acc IH]; simpl.
  - intuition congruence.
  - destruct (label_eqb l0 l) eqn:E0; simpl.
    + apply label_eqb_eq in E0. subst l0. intuition congruence.
    + rewrite IH. tauto.
Qed.

Lemma add_sector_NoDup l v acc :
  NoDup (map fst acc) -> NoDup (map fst (add_sector l v acc)).
Proof.
  induction acc as [|[l0 s0] acc IH]; simpl; intros Hnd.
  - repeat constructor. tauto.
  - inversion Hnd as [|? ? Hnotin Hnd']; subst.
    destruct (label_eqb l0 l) eqn:E0; simpl.
    + constructor; assumption.
    + constructor; [|auto]. rewrite add_sector_labels.
      intros [->|H]; [|contradiction].
      rewrite label_eqb_refl in E0. discriminate.
Qed.

Lemma add_sector_sum l v acc :
  sum_Z (map snd (add_sector l v acc)) = sum_Z (map snd acc) + v.
Proof.
  induction acc as [|[l0 s0] acc IH]; simpl; [lia|].
  destruct (label_eqb l0 l); simpl; [lia|]. rewrite IH. lia.
Qed.

Lemma sectors_value rows acc lbl :
  sector_value (fold_left sector_step rows acc) lbl
  = sector_value acc lbl + label_total rows lbl.
Proof.
  revert acc. unfold label_total.
  induction rows as [|[l [v|]] rows IH]; intros acc; simpl.
  - lia.
  - rewrite IH. unfold sector_step, slice_amount. simpl.
    rewrite sector_value_add. lia.
  - rewrite IH. unfold sector_step, slice_amount. simpl.
    destruct (label_eqb l lbl); lia.
Qed.

Lemma sectors_labels rows acc lbl :
  In lbl (map fst (fold_left sector_step rows acc)) <->
  In lbl (map fst acc) \/ exists v, In (lbl, Some v) rows.
Proof.
  revert acc. induction rows as [|[l [v|]] rows IH]; intros acc; simpl.
  - split; [tauto|]. intros [H|[v []]]. exact H.
  - rewrite IH. unfold sector_step. simpl. rewrite add_sector_labels. split.
    + intros [[->|H]|[w Hw]]; eauto.
    + intros [H|[w [E|Hw]]]; eauto.
      injection E as -> _. auto.
  - rewrite IH. unfold sector_step. simpl. split.
    + intros [H|[w Hw]]; eauto.
    + intros [H|[w [E|Hw]]]; eauto. discriminate.
Qed.

Lemma sectors_NoDup rows acc :
  NoDup (map fst acc) -> NoDup (map fst (fold_left sector_step rows acc)).
Proof.
  revert acc. induction rows as [|[l [v|]] rows IH]; intros acc Hnd; simpl.
  - exact Hnd.
  - apply IH. unfold sector_step. simpl. now apply add_sector_NoDup.
  - apply IH. exact Hnd.
Qed.

Lemma sectors_sum rows acc :
  sum_Z (map snd (fold_left sector_step rows acc))
  = sum_Z (map snd acc) + pie_total rows.
Proof.
  revert acc. unfold pie_total.
  induction rows as [|[l [v|]] rows IH]; intros acc; simpl.
  - lia.
  - rewrite IH. unfold sector_step. simpl. rewrite add_sector_sum. lia.
  - rewrite IH. unfold sector_step. simpl. lia.
Qed.

Lemma sector_value_In acc lbl v :
  NoDup (map fst acc) -> In (lbl, v) acc -> sector_value acc lbl = v.
Proof.
  induction acc as [|[l0 s0] acc IH]; simpl; intros Hnd; [tauto|].
  inversion Hnd as [|? ? Hnotin Hnd']; subst.
  intros [E|Hin].
  - injection E as -> ->. now rewrite label_eqb_refl.
  - destruct (label_eqb l0 lbl) eqn:E0; [|auto].
    apply label_eqb_eq in E0. subst l0.
    elim Hnotin. apply in_map_iff. exists (lbl, v). auto.
Qed.
End Sectors.

Lemma label_total_sites (df : DataFrame) (s : string) :
  label_total (map (fun r => (launch_site r, class r)) df) (Some s)
  = outcome_sum (site_records df s).
Proof.
  unfold label_total, outcome_sum, site_records.
  induction df as [|r df IH]; [reflexivity|].
  simpl. rewrite IH. unfold slice_amount, at_site_b. simpl.
  destruct (launch_site r) as [v|]; simpl.
  - destruct (String.eqb v s); simpl; [|reflexivity].
    destruct (class r); simpl; lia.
  - reflexivity.
Qed.

Lemma pie_total_frame (df : DataFrame) :
  pie_total (map (fun r => (launch_site r, class r)) df) = outcome_sum df.
Proof.
  unfold pie_total, outcome_sum.
  induction df as [|r df IH]; [reflexivity|].
  simpl. rewrite IH. destruct (class r); simpl; lia.
Qed.

Lemma outcome_sum_binary (df : DataFrame) :
  binary_outcomes df ->
  outcome_sum df = Z.of_nat (List.length (filter (has_outcome 1) df)).
Proof.
  unfold binary_outcomes, outcome_sum.
  induction df as [|r df IH]; intros H; [reflexivity|].
  assert (IH' := IH (fun r' Hr' => H r' (or_intror Hr'))).
  cbn [map filter Pandas.dropna]. unfold has_outcome at 1.
  destruct (H r (or_introl eq_refl)) as [-> | [-> | ->]];
    cbn [Z.eqb Pos.eqb sum_Z fold_right];
    fold (sum_Z (Pandas.dropna (map class df)));
    rewrite IH'; cbn [List.length]; lia.
Qed.

Lemma get_pie_chart_all df :
  get_pie_chart df "ALL"
  = Pie (map (fun r => (launch_site r, class r)) df)
        "Total Successful Launches by Site".
Proof. reflexivity. Qed.

(** C2. With the site "ALL" the pie is built from every record of the
    dataset, whatever its payload: one row per launch, named by the site
    and valued by the outcome.  For each site, the values under the site's
    name add up to the sum of the outcome values of the site's records;
    the names are those of the sites of the dataset; and the figure is the
    same for every value of the payload slider. *)
Theorem all_sites_success_by_site (df : DataFrame) :
  let fig := get_pie_chart df "ALL" in
  fig = Px.pie df class launch_site "Total Successful Launches by Site"
  /\ slices_of fig = map (fun r => (launch_site r, class r)) df
  /\ (forall s : string,
         label_total (slices_of fig) (Some s) = outcome_sum (site_records df s))
  /\ (forall s : string,
         In s (launch_sites df) <-> exists v, In (Some s, v) (slices_of fig))
  /\ (forall payload_range,
         success_pie_chart df (mkControl "ALL" payload_range) = fig)
  /\ (forall range1 range2,
         success_pie_chart df (mkControl "ALL" range1)
         = success_pie_chart df (mkControl "ALL" range2)).
Proof.
  intros fig.
  split; [reflexivity|]. split; [reflexivity|].
  split; [intros s; apply label_total_sites|].
  split; [|split; reflexivity].
  intros s. unfold launch_sites.
  rewrite sorted_In, (unique_In String.eqb String.eqb_eq), dropna_In, in_map_iff.
  simpl. split.
  - intros (r & Hs & Hr). exists (class r).
    apply in_map_iff. exists r. rewrite Hs. auto.
  - intros (v & Hv). apply in_map_iff in Hv.
    destruct Hv as (r & [= Hs _] & Hr). eauto.
Qed.

(** C7. For a dataset whose outcomes are 0 or 1, the sector values of the
    all-sites pie add up to the number of records with outcome 1 in the
    whole dataset, each site's sector being the number of its successes. *)
Theorem all_sites_counts_sum_to_successes (df : DataFrame) :
  binary_outcomes df ->
  let sectors := pie_sectors (slices_of (get_pie_chart df "ALL")) in
  sum_Z (map snd sectors)
  = Z.of_nat (List.length (filter (has_outcome 1) df))
  /\ (forall s, sector_value sectors (Some s)
                = Z.of_nat (List.length (filter (has_outcome 1) (site_records df s)))).
Proof.
  intros Hbin sectors. split.
  - unfold sectors, pie_sectors. rewrite sectors_sum. simpl.
    rewrite pie_total_frame. now apply outcome_sum_binary.
  - intros s. unfold sectors, pie_sectors. rewrite sectors_value. simpl.
    rewrite label_total_sites. apply outcome_sum_binary.
    intros r Hr. apply Hbin. now apply site_records_In in Hr.
Qed.

Lemma all_sites_sum_witness :
  binary_outcomes scenario_df
  /\ sum_Z (map snd (pie_sectors (slices_of (get_pie_chart scenario_df "ALL"))))
     = Z.of_nat (List.length (filter (has_outcome 1) scenario_df)).
Proof.
  assert (Hbin : binary_outcomes scenario_df).
  { intros r Hr. simpl in Hr.
    destruct Hr as [<-|[<-|[<-|[<-|[]]]]]; simpl; auto. }
  split; [exact Hbin|].
  apply (all_sites_counts_sum_to_successes scenario_df Hbin).
Defined.

(** ** The order on strings *)

Lemma string_compare_refl a : String.compare a a = Eq.
Proof.
  induction a as [|x a IH]; simpl; [reflexivity|].
  unfold Ascii.compare. now rewrite N.compare_refl.
Qed.

Lemma string_compare_lt_trans a b c :
  String.compare a b = Lt -> String.compare b c = Lt -> String.compare a c = Lt.
Proof.
  revert b c. induction a as [|x a IH]; intros [|y b] [|z c]; simpl;
    try discriminate; try reflexivity.
  destruct (Ascii.compare x y) eqn:Exy; try discriminate.
  - apply Ascii.compare_eq_iff in Exy. subst y.
    destruct (Ascii.compare x z); try discriminate; [apply IH|reflexivity].
  - intros _. destruct (Ascii.compare y z) eqn:Eyz; try discriminate.
    + apply Ascii.compare_eq_iff in Eyz. subst z. now rewrite Exy.
    + intros _. unfold Ascii.compare in *.
      rewrite N.compare_lt_iff in *.
      assert (H : (N_of_ascii x < N_of_ascii z)%N) by (eapply N.lt_trans; eauto).
      apply N.compare_lt_iff in H. now rewrite H.
Qed.

Lemma string_leb_trans a b c :
  String.leb a b = true -> String.leb b c = true -> String.leb a c = true.
Proof.
  unfold String.leb.
  destruct (String.compare a b) eqn:Eab; try discriminate; intros _.
  - apply String.compare_eq_iff in Eab. now subst b.
  - destruct (String.compare b c) eqn:Ebc; try discriminate; intros _.
    + apply String.compare_eq_iff in Ebc. subst c. now rewrite Eab.
    + now rewrite (string_compare_lt_trans a b c Eab Ebc).
Qed.

Lemma string_leb_neq_ltb a b :
  String.leb a b = true -> a <> b -> String.ltb a b = true.
Proof.
  unfold String.leb, String.ltb.
  destruct (String.compare a b) eqn:E; try discriminate; [|reflexivity].
  apply String.compare_eq_iff in E. intros _ H. contradiction.
Qed.

(** ** Extrema of a column *)

Section Extremum.
Variable pick : Q -> Q -> Q.
Variable R : Q -> Q -> Prop.
Hypothesis pick_one : forall a b, pick a b = a \/ pick a b = b.
Hypothesis pick_l : forall a b, R (pick a b) a.
Hypothesis pick_r : forall a b, R (pick a b) b.
Hypothesis R_trans : forall a b c, R a b -> R b c -> R a c.

Lemma fold_pick vs v :
  In (fold_left pick vs v) (v :: vs)
  /\ forall x, In x (v :: vs) -> R (fold_left pick vs v) x.
Proof.
  revert v. induction vs as [|w vs IH]; intros v; simpl.
  - split; [auto|]. intros x [<-|[]].
    assert (E : pick v v = v) by (destruct (pick_one v v); assumption).
    rewrite <- E at 1. apply pick_l.
  - destruct (IH (pick v w)) as [Hin Hle]. split.
    + destruct Hin as [Hin|Hin]; [|auto].
      rewrite <- Hin. destruct (pick_one v w) as [-> | ->]; auto.
    + intros x [<-|[<-|Hx]].
      * eapply R_trans; [apply Hle; now left|apply pick_l].
      * eapply R_trans; [apply Hle; now left|apply pick_r].
      * apply Hle. now right.
Qed.

Lemma reduce_spec (col : list (option Q)) :
  match Pandas.reduce pick col with
  | Some m => In (Some m) col /\ forall v, In (Some v) col -> R m v
  | None => forall v, ~ In (Some v) col
  end.
Proof.
  unfold Pandas.reduce.
  destruct (Pandas.dropna col) as [|v vs] eqn:E.
  - intros v Hv. apply dropna_In in Hv. rewrite E in Hv. exact Hv.
  - destruct (fold_pick vs v) as [Hin Hle]. rewrite <- E in Hin, Hle. split.
    + now apply dropna_In.
    + intros x Hx. apply Hle. now apply dropna_In.
Qed.
End Extremum.

(** ** The controls *)

Lemma Qmin_b_one a b : Pandas.Qmin_b a b = a \/ Pandas.Qmin_b a b = b.
Proof. unfold Pandas.Qmin_b. destruct (Qle_bool a b); auto. Qed.

Lemma Qmax_b_one a b : Pandas.Qmax_b a b = a \/ Pandas.Qmax_b a b = b.
Proof. unfold Pandas.Qmax_b. destruct (Qle_bool a b); auto. Qed.

Lemma Qle_bool_false a b : Qle_bool a b = false -> (b <= a)%Q.
Proof.
  intros H. apply Qlt_le_weak, Qnot_le_lt. intros Hle.
  apply Qle_bool_iff in Hle. congruence.
Qed.

Lemma Qmin_b_l a b : (Pandas.Qmin_b a b <= a)%Q.
Proof.
  unfold Pandas.Qmin_b. destruct (Qle_bool a b) eqn:E;
    [apply Qle_refl|now apply Qle_bool_false].
Qed.

Lemma Qmin_b_r a b : (Pandas.Qmin_b a b <= b)%Q.
Proof.
  unfold Pandas.Qmin_b. destruct (Qle_bool a b) eqn:E;
    [now apply Qle_bool_iff|apply Qle_refl].
Qed.

Lemma Qmax_b_l a b : (a <= Pandas.Qmax_b a b)%Q.
Proof.
  unfold Pandas.Qmax_b. destruct (Qle_bool a b) eqn:E;
    [now apply Qle_bool_iff|apply Qle_refl].
Qed.

Lemma Qmax_b_r a b : (b <= Pandas.Qmax_b a b)%Q.
Proof.
  unfold Pandas.Qmax_b. destruct (Qle_bool a b) eqn:E;
    [apply Qle_refl|now apply Qle_bool_false].
Qed.

Lemma launch_sites_In df (s : string) :
  In s (launch_sites df) <-> exists r, In r df /\ launch_site r = Some s.
Proof.
  unfold launch_sites.
  rewrite sorted_In, (unique_In String.eqb String.eqb_eq), dropna_In, in_map_iff.
  split; intros (r & H1 & H2); exists r; auto.
Qed.

Lemma launch_sites_NoDup df : NoDup (launch_sites df).
Proof.
  unfold launch_sites. eapply Permutation_NoDup.
  - apply Permutation_sym, sorted_perm.
  - apply unique_NoDup, String.eqb_eq.
Qed.

(** C8. The site list is the set of the site names present in the
    dataset, without repetition and in ascending lexicographic order; the
    payload bounds are the least and the greatest payload present; the
    dropdown offers "ALL" followed by the sites and starts at "ALL"; the
    slider starts at the observed (min, max) and is bounded by 0 and
    10000. *)
Theorem controls_from_dataset (df : DataFrame) :
  StronglySorted (fun a b => String.ltb a b = true) (launch_sites df)
  /\ NoDup (launch_sites df)
  /\ (forall s, In s (launch_sites df) <->
                exists r, In r df /\ launch_site r = Some s)
  /\ match min_payload df with
     | Some m => (exists r, In r df /\ payload_mass r = Some m)
                 /\ forall r v, In r df -> payload_mass r = Some v -> (m <= v)%Q
     | None => forall r, In r df -> payload_mass r = None
     end
  /\ match max_payload df with
     | Some m => (exists r, In r df /\ payload_mass r = Some m)
                 /\ forall r v, In r df -> payload_mass r = Some v -> (v <= m)%Q
     | None => forall r, In r df -> payload_mass r = None
     end
  /\ map value (dd_options (site_dropdown df)) = "ALL" :: launch_sites df
  /\ dd_options (site_dropdown df)
     = mkOption "All Sites" "ALL"
         :: map (fun s => mkOption s s) (launch_sites df)
  /\ dd_value (site_dropdown df) = "ALL"
  /\ rs_value (payload_slider df) = [min_payload df; max_payload df]
  /\ rs_min (payload_slider df) = 0
  /\ rs_max (payload_slider df) = 10000.
Proof.
  split.
  { apply (StronglySorted_strict (fun a b => String.leb a b = true)).
    - intros a b. apply string_leb_neq_ltb.
    - apply launch_sites_NoDup.
    - unfold launch_sites. apply sorted_sorted.
      + apply String.leb_total.
      + apply string_leb_trans. }
  split; [apply launch_sites_NoDup|].
  split; [apply launch_sites_In|].
  assert (Hcol : forall v, In (Some v) (map payload_mass df) <->
                           exists r, In r df /\ payload_mass r = Some v).
  { intros v. rewrite in_map_iff. split; intros (r & H1 & H2); exists r; auto. }
  assert (Hnone : (forall v, ~ In (Some v) (map payload_mass df)) ->
                  forall r, In r df -> payload_mass r = None).
  { intros H r Hr. destruct (payload_mass r) as [v|] eqn:E; [|reflexivity].
    elim (H v). apply Hcol. eauto. }
  split.
  { unfold min_payload, Pandas.min.
    assert (H := reduce_spec Pandas.Qmin_b (fun m v => (m <= v)%Q)
                   Qmin_b_one Qmin_b_l Qmin_b_r Qle_trans (map payload_mass df)).
    destruct (Pandas.reduce Pandas.Qmin_b (map payload_mass df)) as [m|].
    - destruct H as [Hin Hle]. split; [now apply Hcol|].
      intros r v Hr Hv. apply Hle, Hcol. eauto.
    - now apply Hnone. }
  split.
  { unfold max_payload, Pandas.max.
    assert (H := reduce_spec Pandas.Qmax_b (fun m v => (v <= m)%Q)
                   Qmax_b_one Qmax_b_l Qmax_b_r
                   (fun a b c Hab Hbc => Qle_trans c b a Hbc Hab)
                   (map payload_mass df)).
    destruct (Pandas.reduce Pandas.Qmax_b (map payload_mass df)) as [m|].
    - destruct H as [Hin Hle]. split; [now apply Hcol|].
      intros r v Hr Hv. apply Hle, Hcol. eauto.
    - now apply Hnone. }
  split.
  { simpl. unfold dropdown_options. simpl. f_equal.
    rewrite map_map. simpl. apply map_id. }
  repeat split.
Qed.

(** ** Loading *)

Lemma in_columns_iff c cols : in_columns c cols = true <-> In c cols.
Proof. apply (existsb_eqb String.eqb String.eqb_eq). Qed.

Lemma missing_cols_In t c :
  In c (missing_cols t) <-> In c required_cols /\ ~ In c (columns t).
Proof.
  unfold missing_cols. rewrite filter_In, negb_true_iff.
  rewrite <- (in_columns_iff c (columns t)), not_true_iff_false. reflexivity.
Qed.

(** C4. [load_data] fails with FileNotFoundError when the path does not
    exist; for a file that parses to a table it raises the ValueError that
    lists the absent required columns exactly when one of the four required
    columns is absent, and returns the whole table when all four are
    there. *)
Theorem load_data_outcomes (fs : FileSystem) (path : string) :
  required_cols
  = ["Launch Site"; "class"; "Payload Mass (kg)"; "Booster Version Category"]
  /\ (path_exists fs path = false ->
      exists msg, load_data fs path = Raise (FileNotFoundError msg))
  /\ (forall t,
         path_exists fs path = true -> read_csv fs path = Ok t ->
         let names := sorted String.leb (missing_cols t) in
         (forall c, In c names <-> In c required_cols /\ ~ In c (columns t))
         /\ ((exists c, In c required_cols /\ ~ In c (columns t)) ->
             load_data fs path
             = Raise (ValueError ("Faltan columnas requeridas en el CSV: "
                                    ++ repr_list names)%string))
         /\ ((exists e, load_data fs path = Raise e) ->
             exists c, In c required_cols /\ ~ In c (columns t))
         /\ ((forall c, In c required_cols -> In c (columns t)) ->
             load_data fs path = Ok t)).
Proof.
  split; [reflexivity|]. split.
  - intros Hex. unfold load_data. rewrite Hex. simpl. eauto.
  - intros t Hex Hread names.
    assert (Hload : load_data fs path
                    = match missing_cols t with
                      | _ :: _ =>
                          Raise (ValueError
                                   ("Faltan columnas requeridas en el CSV: "
                                      ++ repr_list names)%string)
                      | [] => Ok t
                      end).
    { unfold load_data. rewrite Hex, Hread. reflexivity. }
    split.
    { intros c. unfold names. rewrite sorted_In. apply missing_cols_In. }
    split.
    { intros (c & Hc). apply missing_cols_In in Hc. rewrite Hload.
      destruct (missing_cols t); [destruct Hc|reflexivity]. }
    split.
    { intros (e & He). rewrite Hload in He.
      destruct (missing_cols t) as [|c l] eqn:E; [discriminate|].
      exists c. apply missing_cols_In. rewrite E. now left. }
    intros Hall. rewrite Hload.
    destruct (missing_cols t) as [|c l] eqn:E; [reflexivity|].
    assert (Hc : In c (missing_cols t)) by (rewrite E; now left).
    apply missing_cols_In in Hc. destruct Hc as [Hreq Hnot].
    elim Hnot. now apply Hall.
Qed.

(** ** The scenarios of the specification, evaluated *)

Example scenario_all_sites :
  pie_sectors (slices_of (get_pie_chart scenario_df "ALL"))
  = [(Some "A", 1); (Some "B", 2)].
Proof. reflexivity. Qed.

Example scenario_single_site :
  get_pie_chart scenario_df "A"
  = Pie [(Some "Failure", Some 1); (Some "Success", Some 1)]
        "Total Launch Outcomes for site A".
Proof. reflexivity. Qed.

Example scenario_mid_range :
  get_scatter_plot scenario_df "ALL" [1500 # 1; 3500 # 1]%Q
  = Ok (Scatter [("v1.1", [(Some (2000 # 1)%Q, Some 0, Some "v1.1")]);
                 ("FT", [(Some (3000 # 1)%Q, Some 1, Some "FT")])]
                "Correlation between Payload and Success for all Sites").
Proof. reflexivity. Qed.

Example scenario_empty_range :
  get_scatter_plot scenario_df "B" [9000 # 1; 9500 # 1]%Q
  = Ok (Scatter [] "Correlation between Payload and Success for site B").
Proof. reflexivity. Qed.

(** A frame with holes: the outcome 2 keeps its own slice, labelled in the
    float form because the column has a missing cell; the launch without
    outcome has no slice. *)
Example ragged_single_site :
  slices_of (get_pie_chart ragged_df "A")
  = [(Some "Failure", Some 1); (Some "Success", Some 1); (Some "2.0", Some 1)]
  /\ title_of (get_pie_chart ragged_df "A") = "Total Launch Outcomes for site A".
Proof. split; reflexivity. Qed.

Example ragged_controls :
  launch_sites ragged_df = ["A"; "B"]
  /\ rs_value (payload_slider ragged_df) = [Some (500 # 1)%Q; Some (4000 # 1)%Q].
Proof. split; reflexivity. Qed.

Example unpack_one_value :
  get_scatter_plot scenario_df "ALL" [0 # 1]%Q
  = Raise (ValueError "not enough values to unpack (expected 2, got 1)").
Proof. reflexivity. Qed.

Example load_two_columns_short :
  load_data (mkFS (fun _ => true)
                  (fun _ => Ok (mkTable ["class"; "Launch Site"; "Date"] [])))
            "spacex_launch_dash.csv"
  = Raise (ValueError
             "Faltan columnas requeridas en el CSV: ['Booster Version Category', 'Payload Mass (kg)']").
Proof. reflexivity. Qed.

(** * Further properties of the callbacks, the controls and the loader *)

(** ** The payload range argument *)

(** X1. [get_scatter_plot] returns a figure exactly when the payload range
    has two values; with any other number of values the unpacking raises
    ValueError, whatever the dataset and the site. *)
Theorem scatter_raises_unless_pair
        (df : DataFrame) (s : string) (payload_range : list Q) :
  (List.length payload_range = 2%nat <->
   exists fig, get_scatter_plot df s payload_range = Ok fig)
  /\ (List.length payload_range <> 2%nat <->
      exists msg, get_scatter_plot df s payload_range = Raise (ValueError msg)).
Proof.
  assert (Hraise : forall msg,
             get_scatter_plot df s payload_range = Raise (ValueError msg) ->
             List.length payload_range <> 2%nat ->
             (List.length payload_range = 2%nat <->
              exists fig, get_scatter_plot df s payload_range = Ok fig)
             /\ (List.length payload_range <> 2%nat <->
                 exists m, get_scatter_plot df s payload_range
                           = Raise (ValueError m))).
  { intros msg E Hlen. rewrite E. split; split.
    - intros H. contradiction.
    - intros [fig H]. discriminate H.
    - intros _. eauto.
    - intros _. exact Hlen. }
  destruct payload_range as [|low [|high [|x rest]]].
  - eapply Hraise; [reflexivity|discriminate].
  - eapply Hraise; [reflexivity|discriminate].
  - clear Hraise. rewrite get_scatter_plot_eq. split; split.
    + intros _. eauto.
    + reflexivity.
    + intros H. elim H. reflexivity.
    + intros [msg H]. discriminate H.
  - eapply Hraise; [reflexivity|discriminate].
Qed.

(** ** The two filters together *)

Lemma filter_comm {A : Type} (p q : A -> bool) (l : list A) :
  filter q (filter p l) = filter p (filter q l).
Proof.
  rewrite !filter_filter. apply filter_ext. intros x. apply andb_comm.
Qed.

(** X2. For a concrete site the frame of the scatter plot is the all-sites
    frame of the same payload range restricted to the site; the payload mask
    and the site mask can be applied in either order, and the site's frame
    is a subsequence of the all-sites frame. *)
Theorem site_view_restricts_all_view
        (df : DataFrame) (s : string) (low high : Q) :
  s <> "ALL" ->
  filtered_view df s low high
  = site_filter (filtered_view df "ALL" low high) s
  /\ site_filter (payload_filter df low high) s
     = payload_filter (site_filter df s) low high
  /\ subseq (filtered_view df s low high) (filtered_view df "ALL" low high)
  /\ (List.length (filtered_view df s low high)
      <= List.length (filtered_view df "ALL" low high))%nat.
Proof.
  intros Hs. apply String.eqb_neq in Hs.
  assert (E : filtered_view df s low high
              = site_filter (filtered_view df "ALL" low high) s).
  { unfold filtered_view; cbn [is_all]. rewrite Hs. reflexivity. }
  split; [exact E|]. split.
  { rewrite !site_filter_spec, !payload_filter_spec. apply filter_comm. }
  split.
  { rewrite E, site_filter_spec. apply subseq_filter. }
  rewrite E, site_filter_spec. apply filter_length_le.
Qed.

Lemma site_view_witness :
  "B" <> "ALL"
  /\ subseq (filtered_view scenario_df "B" (0 # 1) (3500 # 1))
            (filtered_view scenario_df "ALL" (0 # 1) (3500 # 1)).
Proof.
  assert (Hs : "B" <> "ALL") by discriminate.
  split; [exact Hs|].
  apply (site_view_restricts_all_view scenario_df "B" (0 # 1) (3500 # 1) Hs).
Defined.

(** ** The loader *)

(** X3. [load_data] returns a table only if the path exists, [read_csv]
    parsed it to that very table and the four required columns are among
    its columns; an exception of [read_csv] is passed on unchanged, and the
    existence test comes first: without the file [read_csv] is not
    consulted. *)
Theorem load_data_succeeds_iff (fs : FileSystem) (path : string) :
  (forall t,
      load_data fs path = Ok t <->
      path_exists fs path = true /\ read_csv fs path = Ok t
      /\ forall c, In c required_cols -> In c (columns t))
  /\ (forall e,
         path_exists fs path = true -> read_csv fs path = Raise e ->
         load_data fs path = Raise e)
  /\ (forall fs',
         path_exists fs path = false -> path_exists fs' path = false ->
         load_data fs path = load_data fs' path).
Proof.
  split; [|split].
  - intros t. unfold load_data.
    destruct (path_exists fs path); simpl.
    + destruct (read_csv fs path) as [t'|e].
      * destruct (missing_cols t') as [|c l] eqn:E.
        -- split.
           ++ intros [= ->]. repeat split.
              intros c Hc. destruct (in_columns c (columns t)) eqn:Hin.
              ** now apply in_columns_iff.
              ** assert (H : In c (missing_cols t)).
                 { apply missing_cols_In. split; [exact Hc|].
                   intros H. apply in_columns_iff in H. congruence. }
                 rewrite E in H. destruct H.
           ++ intros (_ & [= ->] & _). reflexivity.
        -- split; [discriminate|].
           intros (_ & [= ->] & Hall).
           assert (H : In c (missing_cols t)) by (rewrite E; now left).
           apply missing_cols_In in H. destruct H as [Hreq Hnot].
           elim Hnot. now apply Hall.
      * split; [discriminate|]. intros (_ & H & _). discriminate H.
    + split; [discriminate|]. intros (H & _). discriminate H.
  - intros e Hex Hread. unfold load_data. rewrite Hex, Hread. reflexivity.
  - intros fs' H H'. unfold load_data. rewrite H, H'. reflexivity.
Qed.

(** X4. The columns named by the schema error are the absent ones among
    "Booster Version Category", "Launch Site", "Payload Mass (kg)" and
    "class", in this order, whatever the order of the table's columns and
    of the set of required names. *)
Theorem missing_columns_listed_in_order (t : CsvTable) :
  sorted String.leb (missing_cols t)
  = filter (fun c => negb (in_columns c (columns t))) required_sorted.
Proof.
  unfold missing_cols, required_cols, required_sorted. simpl.
  destruct (in_columns "Launch Site" (columns t));
    destruct (in_columns "class" (columns t));
    destruct (in_columns "Payload Mass (kg)" (columns t));
    destruct (in_columns "Booster Version Category" (columns t));
    reflexivity.
Qed.

(** ** The payload bounds and the slider's initial range *)

Lemma payload_column_In (df : DataFrame) v :
  In (Some v) (map payload_mass df) <->
  exists r, In r df /\ payload_mass r = Some v.
Proof.
  rewrite in_map_iff. split; intros (r & H1 & H2); exists r; auto.
Qed.

Lemma min_payload_spec (df : DataFrame) :
  match min_payload df with
  | Some m => In (Some m) (map payload_mass df)
              /\ forall v, In (Some v) (map payload_mass df) -> (m <= v)%Q
  | None => forall v, ~ In (Some v) (map payload_mass df)
  end.
Proof.
  exact (reduce_spec Pandas.Qmin_b (fun m v => (m <= v)%Q)
           Qmin_b_one Qmin_b_l Qmin_b_r Qle_trans (map payload_mass df)).
Qed.

Lemma max_payload_spec (df : DataFrame) :
  match max_payload df with
  | Some m => In (Some m) (map payload_mass df)
              /\ forall v, In (Some v) (map payload_mass df) -> (v <= m)%Q
  | None => forall v, ~ In (Some v) (map payload_mass df)
  end.
Proof.
  exact (reduce_spec Pandas.Qmax_b (fun m v => (v <= m)%Q)
           Qmax_b_one Qmax_b_l Qmax_b_r
           (fun a b c Hab Hbc => Qle_trans c b a Hbc Hab)
           (map payload_mass df)).
Qed.

(** X5. The two payload bounds are missing together, exactly when no
    record has a payload; when they are present the minimum is at most the
    maximum, so the slider starts on a well-formed range. *)
Theorem payload_bounds_ordered (df : DataFrame) :
  (min_payload df = None <-> max_payload df = None)
  /\ (min_payload df = None <-> forall r, In r df -> payload_mass r = None)
  /\ (forall lo hi, min_payload df = Some lo -> max_payload df = Some hi ->
                    (lo <= hi)%Q).
Proof.
  assert (Hmin := min_payload_spec df). assert (Hmax := max_payload_spec df).
  destruct (min_payload df) as [lo|], (max_payload df) as [hi|].
  - split; [split; discriminate|]. split.
    + split; [discriminate|]. intros Hnone. destruct Hmin as [Hin _].
      apply payload_column_In in Hin. destruct Hin as (r & Hr & Hp).
      rewrite (Hnone r Hr) in Hp. discriminate.
    + intros ? ? [= <-] [= <-]. destruct Hmin as [_ Hle], Hmax as [Hin _].
      now apply Hle.
  - destruct Hmin as [Hin _]. elim (Hmax lo Hin).
  - destruct Hmax as [Hin _]. elim (Hmin hi Hin).
  - split; [tauto|]. split; [|discriminate].
    split; [|reflexivity]. intros _ r Hr.
    destruct (payload_mass r) as [v|] eqn:E; [|reflexivity].
    elim (Hmin v). apply payload_column_In. eauto.
Qed.

(** X6. Called with the initial value of the slider, [min_payload] and
    [max_payload], the scatter callback hands to [px.scatter] the frame of
    every record that has a payload: all of them for "ALL", those of the
    site for a concrete site. *)
Theorem initial_range_selects_every_payload
        (df : DataFrame) (s : string) (lo hi : Q) :
  rs_value (payload_slider df) = [Some lo; Some hi] ->
  filtered_view df "ALL" lo hi = filter payload_present df
  /\ (s <> "ALL" ->
      filtered_view df s lo hi = filter payload_present (site_records df s))
  /\ get_scatter_plot df "ALL" [lo; hi]
     = Ok (Px.scatter (filter payload_present df)
                      payload_mass class booster_version_category
                      "Correlation between Payload and Success for all Sites").
Proof.
  intros Hval. simpl in Hval. injection Hval as Hlo Hhi.
  assert (Hmin := min_payload_spec df). assert (Hmax := max_payload_spec df).
  rewrite Hlo in Hmin. rewrite Hhi in Hmax.
  destruct Hmin as [_ Hmin], Hmax as [_ Hmax].
  assert (Hrange : forall r, In r df -> in_range_b lo hi r = payload_present r).
  { intros r Hr. unfold in_range_b, payload_present.
    destruct (payload_mass r) as [v|] eqn:E; [|reflexivity].
    assert (Hin : In (Some v) (map payload_mass df))
      by (apply payload_column_In; eauto).
    apply andb_true_iff. split; apply Qle_bool_iff; auto. }
  assert (Hall : filtered_view df "ALL" lo hi = filter payload_present df).
  { rewrite filtered_view_spec. apply filter_ext_in. intros r Hr.
    unfold selected_b. simpl. rewrite andb_true_r. now apply Hrange. }
  split; [exact Hall|]. split.
  - intros Hs. apply String.eqb_neq in Hs.
    rewrite filtered_view_spec. unfold site_records.
    rewrite filter_filter. apply filter_ext_in. intros r Hr.
    unfold selected_b. rewrite Hs, (Hrange r Hr). simpl. apply andb_comm.
  - rewrite get_scatter_plot_eq, Hall. reflexivity.
Qed.

Lemma initial_range_witness :
  rs_value (payload_slider scenario_df)
  = [Some (inject_Z 1000); Some (inject_Z 4000)]
  /\ filtered_view scenario_df "ALL" (inject_Z 1000) (inject_Z 4000)
     = filter payload_present scenario_df.
Proof.
  split; [reflexivity|].
  apply (initial_range_selects_every_payload scenario_df "ALL"
           (inject_Z 1000) (inject_Z 4000) eq_refl).
Defined.

(** ** Sites that the dataset does not have, and a site named "ALL" *)

Lemma site_records_unknown (df : DataFrame) (s : string) :
  ~ In s (launch_sites df) -> site_records df s = [].
Proof.
  intros Hn. unfold site_records. apply filter_none. intros r Hr.
  destruct (at_site_b s r) eqn:E; [|reflexivity].
  apply at_site_b_iff in E. elim Hn. apply launch_sites_In. eauto.
Qed.

(** X7. For a site value other than "ALL" that no record carries, both
    callbacks return an empty figure instead of failing: a pie without
    slices and a scatter plot without points, for every payload range. *)
Theorem unknown_site_gives_empty_figures (df : DataFrame) (s : string) :
  s <> "ALL" -> ~ In s (launch_sites df) ->
  get_pie_chart df s = Pie [] ("Total Launch Outcomes for site " ++ s)%string
  /\ forall low high,
       get_scatter_plot df s [low; high]
       = Ok (Scatter [] ("Correlation between Payload and Success for site "
                           ++ s)%string).
Proof.
  intros Hs Hn. assert (Hrec := site_records_unknown df s Hn). split.
  - rewrite (get_pie_chart_site df s Hs), outcome_counts_eq, Hrec. reflexivity.
  - intros low high. rewrite get_scatter_plot_eq.
    assert (E : filtered_view df s low high = []).
    { rewrite filtered_view_spec. apply filter_none. intros r Hr.
      unfold selected_b. apply String.eqb_neq in Hs. rewrite Hs. simpl.
      destruct (at_site_b s r) eqn:Ea; [|apply andb_false_r].
      assert (Hin : In r (site_records df s))
        by (apply filter_In; split; assumption).
      rewrite Hrec in Hin. destruct Hin. }
    rewrite E. unfold scatter_title; cbn [is_all format_site]. apply String.eqb_neq in Hs.
    rewrite Hs. reflexivity.
Qed.

Lemma unknown_site_witness :
  "C" <> "ALL" /\ ~ In "C" (launch_sites scenario_df)
  /\ get_pie_chart scenario_df "C" = Pie [] "Total Launch Outcomes for site C".
Proof.
  assert (Hs : "C" <> "ALL") by discriminate.
  assert (Hn : ~ In "C" (launch_sites scenario_df)).
  { simpl. intros [H|[H|[]]]; discriminate H. }
  split; [exact Hs|]. split; [exact Hn|].
  apply (unknown_site_gives_empty_figures scenario_df "C" Hs Hn).
Defined.

Lemma dropdown_values (df : DataFrame) :
  map value (dropdown_options df) = "ALL" :: launch_sites df.
Proof.
  unfold dropdown_options. simpl. f_equal.
  rewrite map_map. simpl. apply map_id.
Qed.

(** X8. The values offered by the dropdown are pairwise distinct exactly
    when no record has a launch site named "ALL"; such a site shares its
    value with the "All Sites" entry. *)
Theorem dropdown_values_distinct_iff (df : DataFrame) :
  NoDup (map value (dd_options (site_dropdown df))) <->
  ~ exists r, In r df /\ launch_site r = Some "ALL".
Proof.
  change (dd_options (site_dropdown df)) with (dropdown_options df).
  rewrite dropdown_values, NoDup_cons_iff, launch_sites_In.
  split; [tauto|]. intros H. split; [exact H|apply launch_sites_NoDup].
Qed.

(** ** The slices of the single-site pie *)

Lemma string_length_app (a b : string) :
  String.length (a ++ b) = (String.length a + String.length b)%nat.
Proof. induction a as [|c a IH]; simpl; congruence. Qed.

Lemma string_app_inv_tail (a b t : string) :
  (a ++ t = b ++ t)%string -> a = b.
Proof.
  revert b. induction a as [|c a IH]; intros [|d b] H; simpl in H.
  - reflexivity.
  - apply (f_equal String.length) in H. simpl in H.
    rewrite string_length_app in H. lia.
  - apply (f_equal String.length) in H. simpl in H.
    rewrite string_length_app in H. lia.
  - injection H as -> H. f_equal. now apply IH.
Qed.

Lemma to_int_proper (v : Z) :
  Z.to_int v <> Decimal.Pos Decimal.Nil /\ Z.to_int v <> Decimal.Neg Decimal.Nil.
Proof.
  destruct v as [|p|p]; simpl; split; try discriminate;
    intros [= H]; exact (DecimalPos.Unsigned.to_uint_nonnil p H).
Qed.

Lemma astype_str_inj float_dtype v w :
  astype_str float_dtype v = astype_str float_dtype w -> v = w.
Proof.
  unfold astype_str. intros H. apply string_app_inv_tail in H.
  apply DecimalZ.to_int_inj.
  apply (f_equal NilZero.int_of_string) in H.
  destruct (to_int_proper v) as [Hv1 Hv2], (to_int_proper w) as [Hw1 Hw2].
  rewrite !NilZero.isi in H by assumption. congruence.
Qed.

(** Distinct outcome values get distinct labels. *)
Lemma outcome_label_inj float_dtype v w :
  outcome_label float_dtype v = outcome_label float_dtype w -> v = w.
Proof.
  intros H.
  destruct (Z.eq_dec v 1) as [->|Hv1].
  { symmetry in H. rewrite (proj2 (outcome_label_success _ 1) eq_refl) in H.
    symmetry. now apply outcome_label_success in H. }
  destruct (Z.eq_dec w 1) as [->|Hw1].
  { rewrite (proj2 (outcome_label_success _ 1) eq_refl) in H.
    now apply outcome_label_success in H. }
  destruct (Z.eq_dec v 0) as [->|Hv0].
  { symmetry in H. rewrite (proj2 (outcome_label_failure _ 0) eq_refl) in H.
    symmetry. now apply outcome_label_failure in H. }
  destruct (Z.eq_dec w 0) as [->|Hw0].
  { rewrite (proj2 (outcome_label_failure _ 0) eq_refl) in H.
    now apply outcome_label_failure in H. }
  unfold outcome_label in H.
  apply Z.eqb_neq in Hv1, Hw1, Hv0, Hw0. rewrite Hv1, Hw1, Hv0, Hw0 in H.
  now apply astype_str_inj in H.
Qed.

Lemma NoDup_map_inj {A B : Type} (f : A -> B) (l : list A) :
  (forall x y, f x = f y -> x = y) -> NoDup l -> NoDup (map f l).
Proof.
  intros Hinj. induction 1 as [|x l Hx _ IH]; simpl; constructor; [|exact IH].
  intros Hin. apply in_map_iff in Hin. destruct Hin as (y & E & Hy).
  apply Hinj in E. now subst.
Qed.

Lemma add_sector_fresh l v (acc : list (option string * Z)) :
  ~ In l (map fst acc) -> add_sector l v acc = acc ++ [(l, v)].
Proof.
  induction acc as [|[l0 s0] acc IH]; simpl; intros Hn; [reflexivity|].
  destruct (label_eqb l0 l) eqn:E.
  - apply label_eqb_eq in E. tauto.
  - rewrite IH by tauto. reflexivity.
Qed.

(** Rows with distinct labels and present values are shown as they are. *)
Lemma pie_sectors_distinct (rows : list (option string * Z))
      (acc : list (option string * Z)) :
  NoDup (map fst acc ++ map fst rows) ->
  fold_left sector_step (map (fun row => (fst row, Some (snd row))) rows) acc
  = acc ++ rows.
Proof.
  revert acc. induction rows as [|[l v] rows IH]; intros acc Hnd; simpl.
  - now rewrite app_nil_r.
  - unfold sector_step at 2. simpl.
    assert (Hl : ~ In l (map fst acc)).
    { intros Hin. apply NoDup_remove_2 in Hnd. apply Hnd.
      apply in_or_app. now left. }
    rewrite (add_sector_fresh l v acc Hl), IH.
    + rewrite <- app_assoc. reflexivity.
    + rewrite map_app. simpl. rewrite <- app_assoc. exact Hnd.
Qed.

Lemma outcome_counts_positive df (s : string) row :
  In row (outcome_counts df s) -> (1 <= oc_count row)%nat.
Proof.
  intros Hrow. destruct (outcome_counts_row df s row Hrow) as (Hc & _ & Hex).
  destruct Hex as (r & Hr & Hsite & Hclass). rewrite Hc.
  assert (Hin : In r (filter (has_outcome (oc_class row)) (site_records df s))).
  { apply filter_In. split; [apply site_records_In; auto|].
    unfold has_outcome. rewrite Hclass. apply Z.eqb_refl. }
  destruct (filter (has_outcome (oc_class row)) (site_records df s));
    [destruct Hin|simpl; lia].
Qed.

Lemma list_sum_at_least (l : list nat) :
  (forall n, In n l -> (1 <= n)%nat) -> (List.length l <= list_sum l)%nat.
Proof.
  induction l as [|n l IH]; simpl; intros H; [lia|].
  assert (1 <= n)%nat by (apply H; now left).
  assert (List.length l <= list_sum l)%nat by (apply IH; auto). lia.
Qed.

(** X9. In single-site mode no two slices carry the same label and every
    slice counts at least one launch, so the pie shows the rows as they
    are, one sector per outcome value, and never more sectors than the site
    has records. *)
Theorem single_site_slices_distinct (df : DataFrame) (s : string) :
  s <> "ALL" ->
  NoDup (map oc_Outcome (outcome_counts df s))
  /\ (forall row, In row (outcome_counts df s) -> (1 <= oc_count row)%nat)
  /\ pie_sectors (slices_of (get_pie_chart df s))
     = map (fun row => (Some (oc_Outcome row), Z.of_nat (oc_count row)))
           (outcome_counts df s)
  /\ (List.length (outcome_counts df s) <= List.length (site_records df s))%nat.
Proof.
  intros Hs.
  assert (Hnd : NoDup (map oc_Outcome (outcome_counts df s))).
  { replace (map oc_Outcome (outcome_counts df s))
      with (map (outcome_label (class_is_float df))
                (map fst (class_counts (map class (site_records df s))))).
    - apply NoDup_map_inj; [apply outcome_label_inj|apply class_counts_NoDup].
    - rewrite outcome_counts_eq, !map_map. reflexivity. }
  split; [exact Hnd|]. split; [apply outcome_counts_positive|]. split.
  - rewrite (get_pie_chart_site df s Hs). unfold pie_sectors. simpl.
    set (rows := map (fun row => (Some (oc_Outcome row), Z.of_nat (oc_count row)))
                     (outcome_counts df s)).
    replace (map (fun row => (Some (oc_Outcome row), Some (Z.of_nat (oc_count row))))
                 (outcome_counts df s))
      with (map (fun row : option string * Z => (fst row, Some (snd row))) rows)
      by (unfold rows; rewrite map_map; reflexivity).
    rewrite pie_sectors_distinct; [reflexivity|]. simpl.
    unfold rows. rewrite map_map. simpl.
    rewrite <- (map_map oc_Outcome Some).
    apply NoDup_map_inj; [congruence|exact Hnd].
  - transitivity (list_sum (map oc_count (outcome_counts df s))).
    + rewrite <- (length_map oc_count). apply list_sum_at_least.
      intros n Hn. apply in_map_iff in Hn. destruct Hn as (row & <- & Hrow).
      exact (outcome_counts_positive df s row Hrow).
    + rewrite outcome_counts_total. apply filter_length_le.
Qed.

Lemma single_site_slices_witness :
  "A" <> "ALL" /\ NoDup (map oc_Outcome (outcome_counts ragged_df "A")).
Proof.
  assert (Hs : "A" <> "ALL") by discriminate.
  split; [exact Hs|].
  apply (single_site_slices_distinct ragged_df "A" Hs).
Defined.

Lemma ascending_bits (l : list Z) :
  StronglySorted Z.lt l -> (forall x, In x l -> x = 0 \/ x = 1) ->
  l = [] \/ l = [0] \/ l = [1] \/ l = [0; 1].
Proof.
  intros Hs Hbit.
  destruct l as [|a [|b [|c l]]]; auto.
  - destruct (Hbit a (or_introl eq_refl)) as [-> | ->]; auto.
  - inversion Hs as [|? ? _ Ha]; subst. inversion Ha as [|? ? Hab _]; subst.
    destruct (Hbit a (or_introl eq_refl)), (Hbit b (or_intror (or_introl eq_refl)));
      subst; auto; lia.
  - exfalso.
    inversion Hs as [|? ? Hs' Ha]; subst. inversion Ha as [|? ? Hab Ha']; subst.
    inversion Ha' as [|? ? Hac _]; subst.
    inversion Hs' as [|? ? _ Hb]; subst. inversion Hb as [|? ? Hbc _]; subst.
    destruct (Hbit a (or_introl eq_refl)),
      (Hbit b (or_intror (or_introl eq_refl))),
      (Hbit c (or_intror (or_intror (or_introl eq_refl)))); lia.
Qed.

(** X10. When the outcomes of a site's records are 0 or 1 (or missing), its
    pie has at most the two slices "Failure" and "Success", in this
    order. *)
Theorem binary_site_has_two_slices (df : DataFrame) (s : string) :
  s <> "ALL" ->
  (forall r, In r df -> launch_site r = Some s ->
             class r = None \/ class r = Some 0 \/ class r = Some 1) ->
  subseq (map oc_Outcome (outcome_counts df s)) ["Failure"; "Success"]
  /\ (List.length (slices_of (get_pie_chart df s)) <= 2)%nat.
Proof.
  intros Hs Hbin.
  assert (Hcls : let l := map fst (class_counts (map class (site_records df s))) in
                 l = [] \/ l = [0] \/ l = [1] \/ l = [0; 1]).
  { apply ascending_bits; [apply class_counts_ascending|].
    intros v Hv. apply class_counts_values, in_map_iff in Hv.
    destruct Hv as (r & Hc & Hr). apply site_records_In in Hr.
    destruct (Hbin r (proj1 Hr) (proj2 Hr)) as [E|[E|E]];
      rewrite E in Hc; [discriminate| |]; injection Hc as <-; auto. }
  assert (Hlab : map oc_Outcome (outcome_counts df s)
                 = map (outcome_label (class_is_float df))
                       (map fst (class_counts (map class (site_records df s))))).
  { rewrite outcome_counts_eq, !map_map. reflexivity. }
  split.
  - rewrite Hlab. simpl in Hcls.
    destruct Hcls as [-> | [-> | [-> | ->]]]; simpl;
      auto using subseq_nil, subseq_keep, subseq_drop.
  - rewrite (get_pie_chart_site df s Hs). simpl.
    rewrite length_map, <- (length_map oc_Outcome), Hlab, length_map.
    simpl in Hcls. destruct Hcls as [-> | [-> | [-> | ->]]]; simpl; lia.
Qed.

Lemma binary_site_witness :
  "B" <> "ALL"
  /\ subseq (map oc_Outcome (outcome_counts scenario_df "B")) ["Failure"; "Success"].
Proof.
  assert (Hs : "B" <> "ALL") by discriminate.
  split; [exact Hs|].
  apply (binary_site_has_two_slices scenario_df "B" Hs).
  intros r Hr _. simpl in Hr.
  destruct Hr as [<-|[<-|[<-|[<-|[]]]]]; simpl; auto.
Defined.

(** X11. The pie of a site is not narrowed by the payload slider: for
    every payload range, the launches with an outcome that the scatter plot
    of the site shows are at most as many as the pie of the site counts. *)
Theorem site_pie_covers_scatter
        (df : DataFrame) (s : string) (low high : Q) :
  s <> "ALL" ->
  Z.of_nat (List.length (filter outcome_present (filtered_view df s low high)))
  <= pie_total (slices_of (get_pie_chart df s)).
Proof.
  intros Hs. rewrite (get_pie_chart_site df s Hs). simpl.
  rewrite pie_total_counts, outcome_counts_total. apply inj_le.
  assert (E : filtered_view df s low high
              = filter (in_range_b low high) (site_records df s)).
  { rewrite filtered_view_spec. unfold site_records. rewrite filter_filter.
    apply filter_ext. intros r. unfold selected_b.
    apply String.eqb_neq in Hs. rewrite Hs. simpl. apply andb_comm. }
  rewrite E, filter_comm. apply filter_length_le.
Qed.

Lemma site_pie_covers_witness :
  "A" <> "ALL"
  /\ Z.of_nat (List.length (filter outcome_present
                              (filtered_view ragged_df "A" (0 # 1) (1500 # 1))))
     <= pie_total (slices_of (get_pie_chart ragged_df "A")).
Proof.
  assert (Hs : "A" <> "ALL") by discriminate.
  split; [exact Hs|].
  apply (site_pie_covers_scatter ragged_df "A" (0 # 1) (1500 # 1) Hs).
Defined.

(** ** The order of the rows *)

Lemma filter_perm {A : Type} (p : A -> bool) (l l' : list A) :
  Permutation l l' -> Permutation (filter p l) (filter p l').
Proof.
  induction 1 as [|x l l' _ IH|x y l|l l' l'' _ IH1 _ IH2]; simpl.
  - constructor.
  - destruct (p x); auto.
  - destruct (p x), (p y); auto using perm_swap, Permutation_refl.
  - eapply Permutation_trans; eauto.
Qed.

(** A strictly ascending list is determined by its elements. *)
Lemma strictly_sorted_unique {A : Type} (R : A -> A -> Prop) (l1 l2 : list A) :
  (forall a, ~ R a a) ->
  (forall a b c, R a b -> R b c -> R a c) ->
  StronglySorted R l1 -> StronglySorted R l2 ->
  (forall x, In x l1 <-> In x l2) -> l1 = l2.
Proof.
  intros Hirr Htr H1. revert l2.
  induction H1 as [|a l1 Hs1 IH Ha]; intros l2 H2 Hmem.
  - destruct l2 as [|b l2]; [reflexivity|].
    destruct (proj2 (Hmem b) (or_introl eq_refl)).
  - destruct H2 as [|b l2 Hs2 Hb].
    { destruct (proj1 (Hmem a) (or_introl eq_refl)). }
    rewrite Forall_forall in Ha, Hb.
    assert (Eab : a = b).
    { destruct (proj1 (Hmem a) (or_introl eq_refl)) as [E|Hin]; [now symmetry|].
      destruct (proj2 (Hmem b) (or_introl eq_refl)) as [E|Hin']; [exact E|].
      elim (Hirr a). apply (Htr a b a); auto. }
    subst b. f_equal. apply IH; [exact Hs2|].
    intros x. split; intros Hx.
    + destruct (proj1 (Hmem x) (or_intror Hx)) as [E|Hin]; [|exact Hin].
      subst x. elim (Hirr a). now apply Ha.
    + destruct (proj2 (Hmem x) (or_intror Hx)) as [E|Hin]; [|exact Hin].
      subst x. elim (Hirr a). now apply Hb.
Qed.

Lemma launch_sites_ascending (df : DataFrame) :
  StronglySorted (fun a b => String.ltb a b = true) (launch_sites df).
Proof.
  apply (StronglySorted_strict (fun a b => String.leb a b = true)).
  - intros a b. apply string_leb_neq_ltb.
  - apply launch_sites_NoDup.
  - unfold launch_sites. apply sorted_sorted.
    + apply String.leb_total.
    + apply string_leb_trans.
Qed.

Lemma string_ltb_irrefl a : String.ltb a a <> true.
Proof. unfold String.ltb. rewrite string_compare_refl. discriminate. Qed.

Lemma string_ltb_trans a b c :
  String.ltb a b = true -> String.ltb b c = true -> String.ltb a c = true.
Proof.
  unfold String.ltb.
  destruct (String.compare a b) eqn:Eab; try discriminate.
  destruct (String.compare b c) eqn:Ebc; try discriminate.
  now rewrite (string_compare_lt_trans a b c Eab Ebc).
Qed.

Lemma keyed_rows (f : Z -> nat) (cc : list (Z * nat)) :
  (forall row, In row cc -> snd row = f (fst row)) ->
  cc = map (fun v => (v, f v)) (map fst cc).
Proof.
  induction cc as [|[v c] cc IH]; simpl; intros H; [reflexivity|].
  assert (E := H (v, c) (or_introl eq_refl)). simpl in E. subst c.
  f_equal. apply IH. auto.
Qed.

Lemma class_counts_records_perm (rows rows' : DataFrame) :
  Permutation rows rows' ->
  class_counts (map class rows) = class_counts (map class rows').
Proof.
  intros Hp.
  rewrite (keyed_rows
             (fun v => occurrences v (Pandas.dropna (map class rows)))
             (class_counts (map class rows))
             (class_counts_count (map class rows))).
  rewrite (keyed_rows
             (fun v => occurrences v (Pandas.dropna (map class rows')))
             (class_counts (map class rows'))
             (class_counts_count (map class rows'))).
  assert (E : map fst (class_counts (map class rows))
              = map fst (class_counts (map class rows'))).
  { apply (strictly_sorted_unique Z.lt); try apply class_counts_ascending.
    - intros a. lia.
    - intros a b c. lia.
    - intros v. rewrite !class_counts_values. split; apply Permutation_in.
      + now apply Permutation_map.
      + now apply Permutation_map, Permutation_sym. }
  rewrite E. apply map_ext. intros v. f_equal.
  rewrite !occurrences_records. apply Permutation_length. now apply filter_perm.
Qed.

Lemma class_is_float_perm (df df' : DataFrame) :
  Permutation df df' -> class_is_float df = class_is_float df'.
Proof.
  intros Hp. unfold class_is_float.
  apply eq_true_iff_eq. rewrite !existsb_exists.
  split; intros (r & Hr & H); exists r; (split; [|exact H]).
  - exact (Permutation_in r Hp Hr).
  - exact (Permutation_in r (Permutation_sym Hp) Hr).
Qed.

Lemma outcome_sum_perm (rows rows' : DataFrame) :
  Permutation rows rows' -> outcome_sum rows = outcome_sum rows'.
Proof.
  unfold outcome_sum.
  induction 1 as [|x l l' _ IH|x y l|l l' l'' _ IH1 _ IH2]; simpl.
  - reflexivity.
  - destruct (class x); simpl; rewrite IH; reflexivity.
  - destruct (class x), (class y); simpl; lia.
  - congruence.
Qed.

Lemma all_sites_sector_value (df : DataFrame) (s : string) :
  sector_value (pie_sectors (slices_of (get_pie_chart df "ALL"))) (Some s)
  = outcome_sum (site_records df s).
Proof.
  unfold pie_sectors. rewrite sectors_value. simpl. apply label_total_sites.
Qed.

(** X12. The order of the rows of the dataset changes neither the site
    list of the dropdown, nor the pie of a concrete site, nor the value of
    any site's sector in the all-sites pie; the scatter plot keeps the same
    points up to their order. *)
Theorem row_order_irrelevant (df df' : DataFrame) :
  Permutation df df' ->
  launch_sites df = launch_sites df'
  /\ (forall s, s <> "ALL" -> get_pie_chart df s = get_pie_chart df' s)
  /\ (forall s,
         sector_value (pie_sectors (slices_of (get_pie_chart df "ALL"))) (Some s)
         = sector_value (pie_sectors (slices_of (get_pie_chart df' "ALL")))
                        (Some s))
  /\ (forall s low high,
         Permutation (filtered_view df s low high) (filtered_view df' s low high)).
Proof.
  intros Hp. split; [|split; [|split]].
  - apply (strictly_sorted_unique (fun a b => String.ltb a b = true));
      try apply launch_sites_ascending.
    + apply string_ltb_irrefl.
    + apply string_ltb_trans.
    + intros s. rewrite !launch_sites_In.
      split; intros (r & Hr & H); exists r; (split; [|exact H]).
      * exact (Permutation_in r Hp Hr).
      * exact (Permutation_in r (Permutation_sym Hp) Hr).
  - intros s Hs. rewrite !(get_pie_chart_site _ s Hs), !outcome_counts_eq.
    rewrite (class_is_float_perm df df' Hp).
    rewrite (class_counts_records_perm (site_records df s) (site_records df' s));
      [reflexivity|].
    unfold site_records. now apply filter_perm.
  - intros s. rewrite !all_sites_sector_value. apply outcome_sum_perm.
    unfold site_records. now apply filter_perm.
  - intros [|s] low high.
    + rewrite !filtered_view_none. constructor.
    + rewrite !filtered_view_spec. now apply filter_perm.
Qed.

Lemma row_order_witness :
  Permutation scenario_df (rev scenario_df)
  /\ launch_sites scenario_df = launch_sites (rev scenario_df).
Proof.
  assert (Hp : Permutation scenario_df (rev scenario_df))
    by apply Permutation_rev.
  split; [exact Hp|].
  apply (row_order_irrelevant scenario_df (rev scenario_df) Hp).
Defined.

(** ** Sites partition the all-sites plot *)






(** ** Titles *)

Lemma string_app_inv_head (p a b : string) :
  (p ++ a = p ++ b)%string -> a = b.
Proof.
  induction p as [|c p IH]; simpl; intros H; [exact H|].
  injection H as H. now apply IH.
Qed.

Lemma pie_title (df : DataFrame) (v : SiteValue) :
  title_of (get_pie_chart df v)
  = if is_all v then "Total Successful Launches by Site"
    else ("Total Launch Outcomes for site " ++ format_site v)%string.
Proof.
  unfold get_pie_chart, Px.pie. destruct (is_all v); reflexivity.
Qed.

Lemma is_all_true (v : SiteValue) : is_all v = true -> v = Str "ALL".
Proof.
  destruct v as [|s]; simpl; [discriminate|].
  intros H. apply String.eqb_eq in H. now subst.
Qed.

Lemma format_site_eq (v v' : SiteValue) :
  format_site v = format_site v' ->
  v = v' \/ (v = PyNone /\ v' = Str "None") \/ (v = Str "None" /\ v' = PyNone).
Proof.
  destruct v as [|s], v' as [|s']; simpl; intros H; subst; auto.
Qed.

(** X14. The title of a figure tells the dropdown value it was made for,
    up to one confusion: two pies, or two scatter plots, with the same
    title come from the same value, or one from the cleared dropdown
    ([None]) and the other from a site named "None", which do share their
    titles. *)
Theorem titles_identify_selection (df df' : DataFrame) (v v' : SiteValue) :
  (title_of (get_pie_chart df v) = title_of (get_pie_chart df' v') ->
   v = v' \/ (v = PyNone /\ v' = Str "None") \/ (v = Str "None" /\ v' = PyNone))
  /\ (forall low high low' high' fig fig',
         get_scatter_plot df v [low; high] = Ok fig ->
         get_scatter_plot df' v' [low'; high'] = Ok fig' ->
         title_of fig = title_of fig' ->
         v = v' \/ (v = PyNone /\ v' = Str "None")
         \/ (v = Str "None" /\ v' = PyNone))
  /\ title_of (get_pie_chart df PyNone) = title_of (get_pie_chart df (Str "None"))
  /\ scatter_title PyNone = scatter_title (Str "None").
Proof.
  split; [|split; [|split; reflexivity]].
  - rewrite !pie_title.
    destruct (is_all v) eqn:Hv, (is_all v') eqn:Hv'; intros H.
    + apply is_all_true in Hv, Hv'. left. congruence.
    + simpl in H. discriminate H.
    + simpl in H. discriminate H.
    + apply string_app_inv_head in H. now apply format_site_eq.
  - intros low high low' high' fig fig' Hfig Hfig'.
    rewrite get_scatter_plot_eq in Hfig, Hfig'.
    injection Hfig as <-. injection Hfig' as <-.
    unfold Px.scatter, title_of, scatter_title.
    destruct (is_all v) eqn:Hv, (is_all v') eqn:Hv'; simpl; intros H.
    + apply is_all_true in Hv, Hv'. left. congruence.
    + discriminate H.
    + discriminate H.
    + apply (string_app_inv_head
               "Correlation between Payload and Success for site ") in H.
      now apply format_site_eq.
Qed.

(** ** The slider's declared bounds *)

(** X15. The initial value of the slider is not clamped to the declared
    bounds: as soon as one record has a payload above the declared maximum,
    the upper handle starts above it. *)
Theorem slider_value_not_clamped (df : DataFrame) (r : LaunchRecord) (v : Q) :
  In r df -> payload_mass r = Some v ->
  (inject_Z (rs_max (payload_slider df)) < v)%Q ->
  exists hi,
    rs_value (payload_slider df) = [min_payload df; Some hi]
    /\ (inject_Z (rs_max (payload_slider df)) < hi)%Q.
Proof.
  intros Hr Hv Hlt. assert (Hmax := max_payload_spec df).
  assert (Hin : In (Some v) (map payload_mass df))
    by (apply payload_column_In; eauto).
  simpl. destruct (max_payload df) as [hi|].
  - exists hi. split; [reflexivity|].
    destruct Hmax as [_ Hle]. eapply Qlt_le_trans; [exact Hlt|]. now apply Hle.
  - elim (Hmax v Hin).
Qed.

Lemma slider_value_witness :
  In (launch "A" 1 15600 "B5") (launch "A" 1 15600 "B5" :: scenario_df)
  /\ payload_mass (launch "A" 1 15600 "B5") = Some (inject_Z 15600)
  /\ exists hi,
       rs_value (payload_slider (launch "A" 1 15600 "B5" :: scenario_df))
       = [min_payload (launch "A" 1 15600 "B5" :: scenario_df); Some hi]
       /\ (inject_Z (rs_max (payload_slider (launch "A" 1 15600 "B5" :: scenario_df)))
           < hi)%Q.
Proof.
  assert (Hin : In (launch "A" 1 15600 "B5")
                   (launch "A" 1 15600 "B5" :: scenario_df))
    by (left; reflexivity).
  split; [exact Hin|]. split; [reflexivity|].
  apply (slider_value_not_clamped _ (launch "A" 1 15600 "B5")
           (inject_Z 15600) Hin eq_refl).
  unfold Qlt. simpl. lia.
Defined.

(** ** The cleared dropdown *)

(** X16. When the dropdown has been cleared the callbacks receive [None]:
    no record passes the site test, so the pie has no slice and, for every
    payload range, the scatter plot has no trace; both titles name the
    site "None". *)
Theorem cleared_dropdown_gives_empty_figures (df : DataFrame) :
  get_pie_chart df PyNone = Pie [] "Total Launch Outcomes for site None"
  /\ (forall cs, site_dropdown_value cs = PyNone ->
                 success_pie_chart df cs
                 = Pie [] "Total Launch Outcomes for site None")
  /\ forall low high,
       filtered_view df PyNone low high = []
       /\ get_scatter_plot df PyNone [low; high]
          = Ok (Scatter [] "Correlation between Payload and Success for site None").
Proof.
  assert (Hpie : get_pie_chart df PyNone
                 = Pie [] "Total Launch Outcomes for site None").
  { unfold get_pie_chart, outcome_counts. cbn [is_all format_site].
    rewrite site_filter_none. reflexivity. }
  split; [exact Hpie|]. split.
  - intros cs Hcs. unfold success_pie_chart. rewrite Hcs. exact Hpie.
  - intros low high. split; [apply filtered_view_none|].
    rewrite get_scatter_plot_eq, filtered_view_none. reflexivity.
Qed.
